(** * my_ssg: a shallow embedding of [app.py]

    The static site generator of [app.py] reads a tree of markdown files
    with a YAML front matter, renders every page through a template and
    copies static assets next to the result.  This development embeds the
    front-matter parser, the name derivation, the content tree scanner,
    the recursive render, the clean step and the static copy, and settles
    the properties stated about them.

    Conventions.
    - Text is a [string] of bytes; a line keeps its final newline, as
      [readline] returns it.  Files are taken as the text Python's text
      mode delivers.
    - A Python exception is a value of [exn]; a computation that may raise
      returns [result A].  The state of the disk at the moment an
      exception escapes is not tracked: the process ends there.
    - The three external libraries (YAML, CommonMark, Jinja) are section
      variables: the development holds for every behaviour of theirs.
    - The content tree is read through [os.scandir] and [open], two
      more section variables.  The output root and the two static
      directories are trees of files and directories as the calls see
      them through symbolic links, taken apart from one another and from
      the content tree; which entries of the output root are symbolic
      links is kept beside its tree.  Every entry may be read, written
      and removed by the process: a refusal of the system for want of a
      permission is not described. *)

From Stdlib Require Import Ascii String ZArith Lia List Permutation Sorted.
From stdpp Require Import base option list gmap strings fin_maps.

Local Open Scope stdpp_scope.

(** ** Exceptions and the error monad *)

Inductive exn : Type :=
| SystemError (msg : string)      (* raised by [parse_md_file] itself *)
| YAMLError                       (* [yaml.load] rejected the header *)
| TypeError                       (* item assignment on a non-mapping *)
| AttributeError                  (* [.get] on a non-mapping *)
| TemplateNotFound                (* [jinja.get_template] *)
| OSError (msg : string)          (* any failure of a file-system call *)
| RecursionError                  (* the interpreter's recursion limit *)
| OutOfFuel                       (* not a Python exception: the bound of a
                                     loop of the model, shown unreachable *)
| Unmodelled (what : string).     (* not a Python exception: the code goes
                                     on where the model does not follow *)

Inductive result (A : Type) : Type :=
| Ok (a : A)
| Raise (e : exn).
Arguments Ok {A} a.
Arguments Raise {A} e.

Global Instance result_ret : MRet result := fun _ a => Ok a.
Global Instance result_bind : MBind result := fun _ _ k m =>
  match m with
  | Ok a => k a
  | Raise e => Raise e
  end.

(** [for x in xs: st = body(st, x)], stopping at the first exception. *)
Fixpoint for_each {A S : Type} (body : S -> A -> result S) (xs : list A) (st : S)
  : result S :=
  match xs with
  | [] => Ok st
  | x :: xs' => st' ← body st x; for_each body xs' st'
  end.

(** ** Strings as Python uses them *)

Definition nl : ascii := "010"%char.
Definition NL : string := String nl "".

(** [s.startswith(p)] *)
Fixpoint startswith (p s : string) : bool :=
  match p with
  | "" => true
  | String a p' =>
      match s with
      | "" => false
      | String b s' => Ascii.eqb a b && startswith p' s'
      end
  end.

(** [s.endswith(p)] *)
Definition string_rev (s : string) : string :=
  (fix go (s acc : string) : string :=
     match s with
     | "" => acc
     | String a s' => go s' (String a acc)
     end) s "".

Definition endswith (p s : string) : bool :=
  startswith (string_rev p) (string_rev s).

(** [''.join(lines)] *)
Fixpoint join_lines (lines : list string) : string :=
  match lines with
  | [] => ""
  | l :: ls => l +:+ join_lines ls
  end.

(** [f.readline()] on the unread text of a file: the next line with its
    newline, or whatever is left when no newline follows; the empty
    string at the end of the file.  The second component is the text
    still unread. *)
Fixpoint readline (text : string) : string * string :=
  match text with
  | "" => ("", "")
  | String a rest =>
      if Ascii.eqb a nl then (String a "", rest)
      else let '(l, r) := readline rest in (String a l, r)
  end.

(** ** Values decoded from YAML

    What [yaml.load] returns: [None], a scalar, a list, or a mapping;
    mappings are Python dicts, modelled as finite maps on their string
    keys. *)

#[warnings="-register-all"]
Inductive value : Type :=
| VNone
| VBool (b : bool)
| VInt (z : Z)
| VStr (s : string)
| VList (xs : list value)
| VDict (d : gmap string value).

(** [page[k] = v]: item assignment, a [TypeError] on what is not a dict
    ([None], a scalar, or a list indexed by a string). *)
Definition py_setitem (page : value) (k : string) (v : value) : result value :=
  match page with
  | VDict d => Ok (VDict (<[k := v]> d))
  | _ => Raise TypeError
  end.

(** [obj.get(k, dflt)]: defined on dicts only. *)
Definition py_get (obj : value) (k : string) (dflt : value) : result value :=
  match obj with
  | VDict d => Ok (default dflt (d !! k))
  | _ => Raise AttributeError
  end.

(** ** The front-matter parser *)

Section Parser.

(** [open(path, 'r')]: the text of the file, or the exception. *)
Variable open_text : string -> result string.
(** [yaml.load(s, Loader=yaml.FullLoader)]; [None] when it raises. *)
Variable yaml_load : string -> option value.
(** [cmark.to_html] *)
Variable to_html : string -> string.

(** The [while] loop of [parse_md_file].  [i] and [lines] are the
    variables of the source, [line] the line read last and [rest] the
    unread text.  The loop runs at most 52 times; [fuel] bounds the
    recursion and is never exhausted from [i = 0] with 52 units
    ([header_loop_fuel] below). *)
Fixpoint header_loop (fuel i : nat) (lines : list string) (line rest : string)
  : result (list string * string) :=
  if startswith "---" line then Ok (lines, rest)
  else if 50 <? i then
    Raise (SystemError "not reached to `---` after 50 lines")
  else
    match fuel with
    | 0 => Raise OutOfFuel
    | S fuel' =>
        let '(line', rest') := readline rest in
        header_loop fuel' (S i) (lines ++ [line]) line' rest'
    end.

(** The body of [with open(path) as f: ...], on the text of the file. *)
Definition parse_md_text (path text : string) (header_only : bool)
  : result value :=
  let '(first, rest) := readline text in
  if negb (startswith "---" first) then
    Raise (SystemError ("not started by `---`: " +:+ path))
  else
    let '(line, rest') := readline rest in
    '(lines, body) ← header_loop 52 0 [] line rest';
    match yaml_load (join_lines lines) with
    | None => Raise YAMLError
    | Some page =>
        if header_only then Ok page
        else py_setitem page "content" (VStr (to_html body))
    end.

Definition parse_md_file (path : string) (header_only : bool) : result value :=
  text ← open_text path;
  parse_md_text path text header_only.

End Parser.

(** ** Names and paths *)

(** [s.split(c)] *)
Fixpoint split_on (c : ascii) (s : string) : list string :=
  match s with
  | "" => [""]
  | String a r =>
      if Ascii.eqb a c then "" :: split_on c r
      else match split_on c r with
           | w :: ws => String a w :: ws
           | [] => [String a ""]
           end
  end.

(** The digits [0] to [9] *)
Definition is_digit (a : ascii) : bool :=
  (48 <=? nat_of_ascii a) && (nat_of_ascii a <=? 57).

(** [\d+] after its first digit: the text left after a run of digits. *)
Fixpoint skip_digits (s : string) : string :=
  match s with
  | "" => ""
  | String a r => if is_digit a then skip_digits r else s
  end.

(** What a greedy [.+] or [.*] takes: the characters up to the first
    newline, which [.] does not match. *)
Fixpoint until_newline (s : string) : string :=
  match s with
  | "" => ""
  | String a r => if Ascii.eqb a nl then "" else String a (until_newline r)
  end.

(** [Folder.get_name]: [pattern.match(name)] with the pattern
    [^\d+\.(?P<name>.+)], then the group [name] or the argument itself.
    The run of digits is taken whole (a shorter run is followed by a
    digit, not by the dot), and the group is not empty.  [\d] is read
    on the digits [0] to [9]: the pattern also takes the decimal digits
    of other scripts, which a name of ASCII characters does not have.
    What is stated of a name that the pattern does not match is stated
    of a name of ASCII characters ([ascii_only]). *)
Definition get_name (name : string) : string :=
  match name with
  | "" => name
  | String a r =>
      if is_digit a then
        match skip_digits r with
        | String "."%char s =>
            match until_newline s with
            | "" => name
            | group => group
            end
        | _ => name
        end
      else name
  end.

(** [s.rfind(c)] for a one-character [c]: the last index, or -1. *)
Fixpoint rfind_from (c : ascii) (s : string) (i last : Z) : Z :=
  match s with
  | "" => last
  | String a r => rfind_from c r (i + 1) (if Ascii.eqb a c then i else last)
  end.

Definition rfind (c : ascii) (s : string) : Z := rfind_from c s 0 (-1).

Fixpoint all_dots (s : string) : bool :=
  match s with
  | "" => true
  | String a r => Ascii.eqb a "."%char && all_dots r
  end.

(** [os.path.splitext] (posixpath): split at the last dot of the last
    component, unless only dots precede it there. *)
Definition splitext (p : string) : string * string :=
  let sepIndex := rfind "/"%char p in
  let dotIndex := rfind "."%char p in
  if (sepIndex <? dotIndex)%Z then
    let filenameIndex := Z.to_nat (sepIndex + 1) in
    if all_dots (String.substring filenameIndex (Z.to_nat dotIndex - filenameIndex) p)
    then (p, "")
    else (String.substring 0 (Z.to_nat dotIndex) p,
          String.substring (Z.to_nat dotIndex) (String.length p - Z.to_nat dotIndex) p)
  else (p, "").

(** [os.path.join(path, b)] (posixpath): an absolute component replaces
    what came before; otherwise it is appended, after a slash unless
    the path is empty or already ends with one. *)
Definition os_path_join (path b : string) : string :=
  if startswith "/" b then b
  else if String.eqb path "" || endswith "/" path then path +:+ b
  else path +:+ "/" +:+ b.

(** ** The content tree *)

(** An entry of [os.scandir].  [is_file] and [is_dir] are the answers of
    the methods of that name, which follow symbolic links: an entry that
    is a link to a regular file has both [is_symlink] and [is_file]. *)
Module DirEntry.
Record t : Type := mk {
  name : string;
  is_file : bool;
  is_dir : bool;
  is_symlink : bool
}.
(** [x.path], for an entry of [os.scandir(dir)] *)
Definition path (dir : string) (x : t) : string := os_path_join dir (name x).
End DirEntry.

(** A [Folder] object after [__init__].  The back-reference [parent] is
    left out: no function below reads it. *)
#[warnings="-register-all"]
Inductive Folder : Type :=
  mkFolder (path name : string) (is_index : bool) (index : value)
           (folders : list Folder) (files : list (string * string)).

Definition path (f : Folder) : string := let 'mkFolder p _ _ _ _ _ := f in p.
Definition name (f : Folder) : string := let 'mkFolder _ n _ _ _ _ := f in n.
Definition is_index (f : Folder) : bool := let 'mkFolder _ _ b _ _ _ := f in b.
Definition index (f : Folder) : value := let 'mkFolder _ _ _ i _ _ := f in i.
Definition folders (f : Folder) : list Folder := let 'mkFolder _ _ _ _ l _ := f in l.
Definition files (f : Folder) : list (string * string) :=
  let 'mkFolder _ _ _ _ _ l := f in l.

(** [list.sort(key=...)] on string keys: a stable sort, here by
    insertion.  Strings compare by code point, which on bytes is
    [String.leb]. *)
Fixpoint insert_by {A : Type} (key : A -> string) (x : A) (l : list A) : list A :=
  match l with
  | [] => [x]
  | y :: l' =>
      if String.leb (key x) (key y) then x :: l else y :: insert_by key x l'
  end.

Definition sort_by {A : Type} (key : A -> string) (l : list A) : list A :=
  foldr (insert_by key) [] l.

(** What the render logs: the calls that change the output tree. *)
Inductive effect : Type :=
| Mkdir (dir : string)                 (* [App.mkdir]: the directory exists afterwards *)
| Write (file content : string).       (* [open(file, 'w')] and [out.write] *)

Section Site.

Variable open_text : string -> result string.
Variable yaml_load : string -> option value.
Variable to_html : string -> string.
(** [os.scandir(dir)]: the entries, in the order the system gives. *)
Variable scandir : string -> result (list DirEntry.t).
(** [jinja.get_template(template).render(config=, root=, data=,
    folder=, page=)], for the configuration and the data of the run;
    [TemplateNotFound] or whatever the template raises. *)
Variable render : value -> Folder -> Folder -> value -> result string.

(** The body of the [for] loop of [Folder._scan], on the fields of
    [self]; [init] is the constructor for the subfolders. *)
Definition scan_entry (init : string -> string -> result Folder)
           (self : Folder) (x : DirEntry.t) : result Folder :=
  let 'mkFolder spath sname is_idx idx subs fls := self in
  if DirEntry.is_file x && endswith ".md" (DirEntry.name x) then
    if String.eqb (DirEntry.name x) "_index.md" then
      page ← parse_md_file open_text yaml_load to_html
               (DirEntry.path spath x) true;
      Ok (mkFolder spath sname true page subs fls)
    else
      let name := (splitext (get_name (DirEntry.name x))).1 in
      Ok (mkFolder spath sname is_idx idx subs (fls ++ [(DirEntry.name x, name)]))
  else if DirEntry.is_dir x && negb (startswith "." (DirEntry.name x)) then
    folder ← init (DirEntry.path spath x) (get_name (DirEntry.name x));
    Ok (mkFolder spath sname is_idx idx (subs ++ [folder]) fls)
  else Ok self.

(** [Folder(path, name)]: [__init__] and [_scan].  [depth] is the
    number of nested constructor calls the interpreter still allows. *)
Fixpoint Folder_init (depth : nat) (dir nm : string) : result Folder :=
  match depth with
  | 0 => Raise RecursionError
  | S depth' =>
      entries ← scandir dir;
      self ← for_each (scan_entry (Folder_init depth')) entries
               (mkFolder dir nm false (VDict ∅) [] []);
      let 'mkFolder spath sname is_idx idx subs fls := self in
      Ok (mkFolder spath sname is_idx idx (sort_by path subs) (sort_by fst fls))
  end.

(** [App._write], with [self.root] as [root] *)
Definition _write (root : Folder) (template : value) (path : string)
           (folder : Folder) (page : value) : result (list effect) :=
  out ← render template root folder page;
  Ok [Write (os_path_join path "index.html") out].

(** [page.get('template', 'index.html')] *)
Definition index_template (page : value) : result value :=
  py_get page "template" (VStr "index.html").

(** [page.get('template', folder.index.get('files_template',
    'page.html'))]: the default is an argument of the outer call, so it
    is evaluated first. *)
Definition file_template (folder : Folder) (page : value) : result value :=
  dflt ← py_get (index folder) "files_template" (VStr "page.html");
  py_get page "template" dflt.

(** The [if folder.is_index] block of [App._build] *)
Definition build_index (root folder : Folder) (out_dir : string)
  : result (list effect) :=
  if is_index folder then
    page ← parse_md_file open_text yaml_load to_html
             (os_path_join (path folder) "_index.md") false;
    template ← index_template page;
    let path := os_path_join out_dir (name folder) in
    w ← _write root template path folder page;
    Ok (Mkdir path :: w)
  else Ok [].

(** The body of [for f in folder.files] *)
Definition build_file (root folder : Folder) (out_dir : string)
           (f : string * string) : result (list effect) :=
  page ← parse_md_file open_text yaml_load to_html
           (os_path_join (path folder) f.1) false;
  template ← file_template folder page;
  let path := os_path_join out_dir f.2 in
  w ← _write root template path folder page;
  Ok (Mkdir path :: w).

(** The effects of the elements of a list, one after the other. *)
Definition each {A : Type} (body : A -> result (list effect)) (xs : list A)
  : result (list effect) :=
  for_each (fun log x => w ← body x; Ok (log ++ w)) xs [].

(** [App._build] *)
Fixpoint _build (root folder : Folder) (out_dir : string) {struct folder}
  : result (list effect) :=
  let 'mkFolder _ _ _ _ subs fls := folder in
  e1 ← build_index root folder out_dir;
  e2 ← each (build_file root folder out_dir) fls;
  e3 ← each (fun f => _build root f (os_path_join out_dir (name f))) subs;
  Ok (e1 ++ e2 ++ e3).

End Site.

(** ** The output tree and the static directories

    A directory of the disk that the build changes or copies from: files
    with their content and directories with their entries, keyed by
    name, as [is_file], [is_dir], [open] and [os.scandir] see them:
    through symbolic links.  A path that does not exist is [None].  The
    one call that tells a symbolic link from what it points to is
    [shutil.rmtree]; the names of the entries of the output root that
    are symbolic links are a set [links] beside the tree. *)

#[warnings="-register-all"]
Inductive node : Type :=
| File (content : string)
| Dir (entries : gmap string node).

(** The entries of a path taken as a directory; none when it is absent. *)
Definition entries_of (t : option node) : gmap string node :=
  match t with
  | Some (Dir d) => d
  | _ => ∅
  end.

Definition node_is_dir (x : node) : bool :=
  match x with Dir _ => true | File _ => false end.

(** [shutil.rmtree(x.path)] on an entry [n] of the directory [d]: it
    refuses a symbolic link before anything else, and removes a
    directory with all it holds. *)
Definition rmtree (links : gset string) (n : string) (d : gmap string node)
  : result (gmap string node) :=
  if decide (n ∈ links) then Raise (OSError "Cannot call rmtree on a symbolic link")
  else
    match d !! n with
    | Some (Dir _) => Ok (delete n d)
    | Some (File _) => Raise (OSError "NotADirectoryError")
    | None => Raise (OSError "FileNotFoundError")
    end.

(** [os.unlink(x.path)] on an entry [n] of the directory [d]: it removes
    a file, and a symbolic link whatever it points to. *)
Definition unlink (links : gset string) (n : string) (d : gmap string node)
  : result (gmap string node) :=
  match d !! n with
  | Some (File _) => Ok (delete n d)
  | Some (Dir _) =>
      if decide (n ∈ links) then Ok (delete n d)
      else Raise (OSError "IsADirectoryError")
  | None => Raise (OSError "FileNotFoundError")
  end.

(** [shutil.copy(x.path, dst)] with [dst = os.path.join(public, n)], for
    a file of content [c]: when [dst] is a directory the file goes into
    it under its own name; otherwise [dst] is created or overwritten.
    The parent of [dst] must be a directory. *)
Definition shutil_copy (c n : string) (public : option node) : result (option node) :=
  match public with
  | Some (Dir d) =>
      match d !! n with
      | Some (Dir sub) =>
          match sub !! n with
          | Some (Dir _) => Raise (OSError "IsADirectoryError")
          | _ => Ok (Some (Dir (<[n := Dir (<[n := File c]> sub)]> d)))
          end
      | _ => Ok (Some (Dir (<[n := File c]> d)))
      end
  | Some (File _) => Raise (OSError "NotADirectoryError")
  | None => Raise (OSError "FileNotFoundError")
  end.

(** [shutil.copytree(x.path, dst)] for a directory of entries [t]:
    [os.makedirs(dst)] creates the missing parents and raises when
    [dst] exists, then the tree is copied. *)
Definition shutil_copytree (t : gmap string node) (n : string) (public : option node)
  : result (option node) :=
  match public with
  | None => Ok (Some (Dir {[ n := Dir t ]}))
  | Some (File _) => Raise (OSError "NotADirectoryError")
  | Some (Dir d) =>
      match d !! n with
      | Some _ => Raise (OSError "FileExistsError")
      | None => Ok (Some (Dir (<[n := Dir t]> d)))
      end
  end.

Section Disk.

(** [os.scandir] on a directory of the disk: its entries in an order
    the system chooses. *)
Variable listing : gmap string node -> list (string * node).
Hypothesis listing_perm : forall d, listing d ≡ₚ map_to_list d.

(** [os.scandir(p)] for a path [p] holding [t] *)
Definition scan_node (t : option node) : result (list (string * node)) :=
  match t with
  | Some (Dir d) => Ok (listing d)
  | Some (File _) => Raise (OSError "NotADirectoryError")
  | None => Raise (OSError "FileNotFoundError")
  end.

(** The body of the loop of the clean step, on the entries [d] of the
    output root, of which those named in [links] are symbolic links;
    [x.is_dir()] follows a link, so a link to a directory goes to
    [shutil.rmtree]. *)
Definition clean_entry (links : gset string) (d : gmap string node) (x : string * node)
  : result (gmap string node) :=
  if String.eqb x.1 ".git" then Ok d
  else if node_is_dir x.2 then rmtree links x.1 d
  else unlink links x.1 d.

(** The clean step of [App.build] on the output root *)
Definition clean (links : gset string) (public : option node) : result (option node) :=
  match public with
  | None => Ok None
  | Some _ =>
      xs ← scan_node public;
      d ← for_each (clean_entry links) xs (entries_of public);
      Ok (Some (Dir d))
  end.

(** The inner function [copy] of [App._copy_static_files], with the
    output root as state; [src] is known to exist. *)
Definition copy (src : option node) (public : option node) : result (option node) :=
  xs ← scan_node src;
  for_each (fun pub x =>
              match x.2 with
              | File c => shutil_copy c x.1 pub
              | Dir t => shutil_copytree t x.1 pub
              end) xs public.

(** [App._copy_static_files]: [static] is the site-wide directory
    and [theme_static] the directory [static] of the active theme *)
Definition _copy_static_files (static theme_static public : option node)
  : result (option node) :=
  pub ← (if static is Some _ then copy static public else Ok public);
  if theme_static is Some _ then copy theme_static pub else Ok pub.

End Disk.

(** ** The render on the output tree

    The log of [_build] acts on the output root through paths.  A path
    below the output root is resolved by its components after those of
    the root; empty components and [.] do not count.  A path with [..],
    or one that is not below the root, leaves what the tree describes:
    the code goes on there and the model stops with [Unmodelled]. *)

Definition components (p : string) : list string :=
  List.filter (fun c => negb (String.eqb c "" || String.eqb c "."))
              (split_on "/"%char p).

Fixpoint strip_components (pre cs : list string) : option (list string) :=
  match pre, cs with
  | [], _ => Some cs
  | a :: pre', b :: cs' =>
      if String.eqb a b then strip_components pre' cs' else None
  | _ :: _, [] => None
  end.

Definition below (public p : string) : result (list string) :=
  match strip_components (components public) (components p) with
  | Some cs =>
      if existsb (String.eqb "..") cs
      then Raise (Unmodelled "a path outside the output root")
      else Ok cs
  | None => Raise (Unmodelled "a path outside the output root")
  end.

(** What a path holds *)
Fixpoint lookup_path (cs : list string) (t : option node) : option node :=
  match cs with
  | [] => t
  | c :: cs' =>
      match t with
      | Some (Dir d) => lookup_path cs' (d !! c)
      | _ => None
      end
  end.

(** [os.makedirs(path, exist_ok=True)]: every missing directory of the
    path is created; a file where the path ends is a [FileExistsError],
    a file on the way a [NotADirectoryError]. *)
Fixpoint makedirs (cs : list string) (t : option node) {struct cs} : result node :=
  match cs with
  | [] =>
      match t with
      | Some (File _) => Raise (OSError "FileExistsError")
      | _ => Ok (Dir (entries_of t))
      end
  | c :: cs' =>
      match t with
      | Some (File _) => Raise (OSError "NotADirectoryError")
      | _ =>
          sub ← makedirs cs' (entries_of t !! c);
          Ok (Dir (<[c := sub]> (entries_of t)))
      end
  end.

(** [App.mkdir]: [os.makedirs] unless [os.path.exists(path)] *)
Definition mkdir (cs : list string) (t : option node) : result (option node) :=
  match lookup_path cs t with
  | Some _ => Ok t
  | None => t' ← makedirs cs t; Ok (Some t')
  end.

(** [open(path, 'w')] and [out.write(content)]: the directory of the
    file must exist, and the file is created or replaced. *)
Fixpoint write_at (cs : list string) (content : string) (t : option node)
  : result node :=
  match cs with
  | [] =>
      match t with
      | Some (Dir _) => Raise (OSError "IsADirectoryError")
      | _ => Ok (File content)
      end
  | c :: cs' =>
      match t with
      | Some (Dir d) =>
          sub ← write_at cs' content (d !! c);
          Ok (Dir (<[c := sub]> d))
      | Some (File _) => Raise (OSError "NotADirectoryError")
      | None => Raise (OSError "FileNotFoundError")
      end
  end.

(** One entry of the log, on the output root [t] at the path [public] *)
Definition run_effect (public : string) (t : option node) (e : effect)
  : result (option node) :=
  match e with
  | Mkdir dir => cs ← below public dir; mkdir cs t
  | Write file content =>
      cs ← below public file; t' ← write_at cs content t; Ok (Some t')
  end.

Section Build.

Variable open_text : string -> result string.
Variable yaml_load : string -> option value.
Variable to_html : string -> string.
Variable render : value -> Folder -> Folder -> value -> result string.
Variable listing : gmap string node -> list (string * node).

(** [App.build], for [self.root = root] and the output root at the path
    [public]; the directories of the configuration are taken apart from
    one another, [out] is what the output root holds and [links] names
    its entries that are symbolic links. *)
Definition build (root : Folder) (public : string)
           (static theme_static : option node)
           (links : gset string) (out : option node) : result (option node) :=
  out ← clean listing links out;
  log ← _build open_text yaml_load to_html render root root public;
  out ← for_each (run_effect public) log out;
  _copy_static_files listing static theme_static out.

End Build.

(** ** The data files *)

Section Data.

Variable open_text : string -> result string.
Variable scandir : string -> result (list DirEntry.t).
(** [json.load(f)] on the text of the file: the value, or the exception *)
Variable json_load : string -> result value.

(** The body of the loop of [App._data_files], on the dict [data] *)
Definition data_entry (dir : string) (data : gmap string value) (x : DirEntry.t)
  : result (gmap string value) :=
  let split := splitext (DirEntry.name x) in
  if DirEntry.is_file x && String.eqb split.2 ".json" then
    text ← open_text (DirEntry.path dir x);
    v ← json_load text;
    Ok (<[split.1 := v]> data)
  else Ok data.

(** [App._data_files], for [config['app']['data'] = dir] *)
Definition _data_files (dir : string) : result (gmap string value) :=
  entries ← scandir dir;
  for_each (data_entry dir) entries ∅.

End Data.

(** ** Stand-ins for the libraries, for the examples

    The theorems hold for every YAML decoder and every HTML converter.
    The examples need one of each: [flat_yaml] decodes the documents
    made of [key: value] lines with string values and of comment lines,
    on which it agrees with YAML (a document without any key is [None]),
    and [one_paragraph] wraps
    a body the way CommonMark renders a single paragraph. *)

Fixpoint split_colon (s : string) : option (string * string) :=
  match s with
  | "" => None
  | String a r =>
      if Ascii.eqb a ":"%char && startswith " " r
      then Some ("", String.substring 1 (String.length r - 1) r)
      else '(k, v) ← split_colon r; Some (String a k, v)
  end.

Definition flat_yaml (doc : string) : option value :=
  let ls := List.filter (fun l => negb (String.eqb l "" || startswith "#" l))
                        (split_on nl doc) in
  kvs ← mapM split_colon ls;
  match kvs with
  | [] => Some VNone
  | _ => Some (VDict (foldl (fun m kv => <[kv.1 := VStr kv.2]> m) ∅ kvs))
  end.

Definition one_paragraph (body : string) : string :=
  "<p>" +:+ body +:+ "</p>" +:+ NL.

(** ** Lines and delimiters *)

(** A complete line: some characters other than the newline, then one
    newline. *)
Fixpoint is_line (s : string) : bool :=
  match s with
  | "" => false
  | String a r => if Ascii.eqb a nl then String.eqb r "" else is_line r
  end.

(** A text without any newline: the unterminated last line of a file. *)
Fixpoint no_newline (s : string) : bool :=
  match s with
  | "" => true
  | String a r => negb (Ascii.eqb a nl) && no_newline r
  end.

(** [c] is all of the next line of the text [c +:+ body]: a complete
    line, or the unterminated end of the file. *)
Definition next_line (c body : string) : bool :=
  is_line c || (no_newline c && String.eqb body "").

(** A line of the front-matter block: complete, and not a delimiter. *)
Definition header_line (l : string) : bool :=
  is_line l && negb (startswith "---" l).

(** The text of a file with an opening line [o], a front-matter block
    [hdr], a closing line [c] and a body. *)
Definition md_text (o : string) (hdr : list string) (c body : string) : string :=
  o +:+ join_lines hdr +:+ c +:+ body.

(** A run of digits, at least one *)
Fixpoint digits (s : string) : bool :=
  match s with
  | "" => false
  | String a "" => is_digit a
  | String a r => is_digit a && digits r
  end.

(** The name starts with digits followed by a dot *)
Definition numbered (s : string) : bool :=
  match s with
  | "" => false
  | String a r => is_digit a && startswith "." (skip_digits r)
  end.

(** The three tests of the loop of [Folder._scan], in its order: the
    entry is the index file, a content file, or a subfolder to scan. *)
Definition is_index_entry (x : DirEntry.t) : bool :=
  DirEntry.is_file x && endswith ".md" (DirEntry.name x)
  && String.eqb (DirEntry.name x) "_index.md".

Definition is_content_entry (x : DirEntry.t) : bool :=
  DirEntry.is_file x && endswith ".md" (DirEntry.name x)
  && negb (String.eqb (DirEntry.name x) "_index.md").

Definition is_folder_entry (x : DirEntry.t) : bool :=
  negb (DirEntry.is_file x && endswith ".md" (DirEntry.name x))
  && DirEntry.is_dir x && negb (startswith "." (DirEntry.name x)).

(** The pair stored in [self.files] for a content file *)
Definition file_pair (x : DirEntry.t) : string * string :=
  (DirEntry.name x, (splitext (get_name (DirEntry.name x))).1).

(** ** A small site, for the examples

    [[
    content/_index.md             title: Home
    content/10.about.md           title: About
    content/.draft.md             title: Draft
    content/notes.txt
    content/.git/
    content/latest.md             a link to 20.blog/first.md
    content/20.blog/_index.md     title: Blog, files_template: post.html
    content/20.blog/first.md      title: First, template: custom.html
    content/20.blog/second.md     title: Second
    ]] *)

Definition md_file (keys : list string) (body : string) : string :=
  md_text ("---" +:+ NL) (map (fun k => k +:+ NL) keys) ("---" +:+ NL) body.

Definition regular_file (n : string) : DirEntry.t := DirEntry.mk n true false false.
Definition directory (n : string) : DirEntry.t := DirEntry.mk n false true false.
Definition link_to_file (n : string) : DirEntry.t := DirEntry.mk n true false true.

Definition site_scandir (dir : string) : result (list DirEntry.t) :=
  if String.eqb dir "content" then
    Ok [regular_file "notes.txt"; directory "20.blog"; regular_file ".draft.md";
        regular_file "_index.md"; directory ".git"; link_to_file "latest.md";
        regular_file "10.about.md"]
  else if String.eqb dir "content/20.blog" then
    Ok [regular_file "second.md"; regular_file "_index.md"; regular_file "first.md"]
  else Raise (OSError "FileNotFoundError").

Definition site_files : list (string * string) :=
  [("content/_index.md", md_file ["title: Home"] "Welcome");
   ("content/10.about.md", md_file ["title: About"] "Hi");
   ("content/.draft.md", md_file ["title: Draft"] "Soon");
   ("content/latest.md", md_file ["title: First"; "template: custom.html"] "One");
   ("content/20.blog/_index.md", md_file ["title: Blog"; "files_template: post.html"] "Posts");
   ("content/20.blog/first.md", md_file ["title: First"; "template: custom.html"] "One");
   ("content/20.blog/second.md", md_file ["title: Second"] "Two")].

Definition site_open (file : string) : result string :=
  match List.find (fun kv => String.eqb kv.1 file) site_files with
  | Some kv => Ok kv.2
  | None => Raise (OSError "FileNotFoundError")
  end.

(** A template engine that knows four templates and prints the name of
    the template before the content of the page. *)
Definition site_render (template : value) (root folder : Folder) (page : value)
  : result string :=
  match template, page with
  | VStr t, VDict p =>
      if List.existsb (String.eqb t) ["index.html"; "page.html"; "post.html"; "custom.html"]
      then match p !! "content" with
           | Some (VStr c) => Ok (t +:+ ": " +:+ c)
           | _ => Ok t
           end
      else Raise TemplateNotFound
  | _, _ => Raise TemplateNotFound
  end.

Definition site_root : result Folder :=
  Folder_init site_open flat_yaml one_paragraph site_scandir 8 "content" "".

(** [f], rendered into [out_f], is [folder], rendered into [out], or one
    of the folders below it: the recursion of [App._build]. *)
Inductive located (folder : Folder) (out : string) : Folder -> string -> Prop :=
| located_here : located folder out folder out
| located_below child f out_f :
    child ∈ folders folder ->
    located child (os_path_join out (name child)) f out_f ->
    located folder out f out_f.

(** The entries of the content root, and its folder once scanned *)
Definition site_entries : list DirEntry.t :=
  match site_scandir "content" with Ok xs => xs | Raise _ => [] end.

Definition site_folder : Folder :=
  match site_root with
  | Ok f => f
  | Raise _ => mkFolder "" "" false VNone [] []
  end.

Definition site_blog : Folder :=
  match folders site_folder with
  | f :: _ => f
  | [] => site_folder
  end.

Definition site_build : result (list effect) :=
  root ← site_root;
  _build site_open flat_yaml one_paragraph site_render root root "public".

(** The site-wide static directory and the one of the theme: both have
    a file [about] and a file [logo.png], and each has a directory. *)
Definition site_static : option node :=
  Some (Dir {[ "about" := File "site about"; "logo.png" := File "site logo";
               "css" := Dir {[ "site.css" := File "a" ]} ]}).

Definition theme_static : option node :=
  Some (Dir {[ "about" := File "theme about"; "logo.png" := File "theme logo";
               "js" := Dir {[ "theme.js" := File "b" ]} ]}).

(** An output root left by an earlier build *)
Definition old_public : option node :=
  Some (Dir {[ ".git" := Dir {[ "HEAD" := File "ref" ]};
               "index.html" := File "old";
               "about" := Dir {[ "index.html" := File "old" ]} ]}).

Definition site_log : list effect :=
  [Mkdir "public/";
   Write "public/index.html" ("index.html: " +:+ one_paragraph "Welcome");
   Mkdir "public/.draft";
   Write "public/.draft/index.html" ("page.html: " +:+ one_paragraph "Soon");
   Mkdir "public/about";
   Write "public/about/index.html" ("page.html: " +:+ one_paragraph "Hi");
   Mkdir "public/latest";
   Write "public/latest/index.html" ("custom.html: " +:+ one_paragraph "One");
   Mkdir "public/blog/blog";
   Write "public/blog/blog/index.html" ("index.html: " +:+ one_paragraph "Posts");
   Mkdir "public/blog/first";
   Write "public/blog/first/index.html" ("custom.html: " +:+ one_paragraph "One");
   Mkdir "public/blog/second";
   Write "public/blog/second/index.html" ("post.html: " +:+ one_paragraph "Two")].

(** What the output root holds after the clean step and the render of
    the example site, and after the whole build *)
Definition site_rendered : option node :=
  match (out ← clean map_to_list ∅ old_public;
         for_each (run_effect "public") site_log out) with
  | Ok t => t
  | Raise _ => None
  end.

Definition site_public : option node :=
  match build site_open flat_yaml one_paragraph site_render map_to_list
              site_folder "public" site_static theme_static ∅ old_public with
  | Ok t => t
  | Raise _ => None
  end.

(** A front-matter block of 51 lines, fifty comments and one key, and a
    file that closes it on the line after. *)
Definition long_header : list string :=
  replicate 50 ("# draft" +:+ NL) ++ ["title: About" +:+ NL].

Definition long_front_matter : string :=
  md_text ("---" +:+ NL) long_header ("---" +:+ NL) "Hi".

(** The first [n] lines that [readline] returns on a text *)
Fixpoint first_lines (n : nat) (text : string) : list string :=
  match n with
  | 0 => []
  | S n' => let '(l, r) := readline text in l :: first_lines n' r
  end.

(** The value is a Python dict *)
Definition is_dict (v : value) : bool :=
  match v with VDict _ => true | _ => false end.

(** The line is not a delimiter *)
Definition plain (l : string) : bool := negb (startswith "---" l).

(** The character does not occur in the string *)
Fixpoint lacks (c : ascii) (s : string) : bool :=
  match s with
  | "" => true
  | String a r => negb (Ascii.eqb a c) && lacks c r
  end.

(** The number of pages of a tree: the index pages and the content
    files of its folders *)
Fixpoint pages (f : Folder) : nat :=
  let 'mkFolder _ _ is_idx _ subs fls := f in
  (if is_idx then 1 else 0) + length fls + list_sum (List.map pages subs).

(** The two entries that the render of a page leaves in the log, for
    the directory [dc.1] and the content [dc.2] *)
Definition page_effects (dc : string * string) : list effect :=
  [Mkdir dc.1; Write (os_path_join dc.1 "index.html") dc.2].

(** The example site with a content file that has no front matter *)
Definition broken_open (file : string) : result string :=
  if String.eqb file "content/20.blog/second.md" then Ok "Two"
  else site_open file.

(** The example site with an [_index.md] that has no front matter *)
Definition broken_index_open (file : string) : result string :=
  if String.eqb file "content/20.blog/_index.md" then Ok "Posts"
  else site_open file.

(** The entry is a file with the extension [.json] and the stem [k] *)
Definition json_named (k : string) (x : DirEntry.t) : bool :=
  DirEntry.is_file x && String.eqb (splitext (DirEntry.name x)).2 ".json"
  && String.eqb (splitext (DirEntry.name x)).1 k.

(** A data directory, and a JSON decoder for the three literals *)
Definition data_scandir (dir : string) : result (list DirEntry.t) :=
  if String.eqb dir "data" then
    Ok [regular_file "notes.txt"; regular_file "menu.json"; directory "old.json";
        regular_file ".json"; regular_file "flags.v2.json"]
  else Raise (OSError "FileNotFoundError").

Definition data_open (file : string) : result string :=
  if String.eqb file "data/menu.json" then Ok "null"
  else if String.eqb file "data/flags.v2.json" then Ok "true"
  else if String.eqb file "data/.json" then Ok "broken"
  else Raise (OSError "FileNotFoundError").

Definition literal_json (text : string) : result value :=
  if String.eqb text "null" then Ok VNone
  else if String.eqb text "true" then Ok (VBool true)
  else if String.eqb text "false" then Ok (VBool false)
  else Raise (OSError "JSONDecodeError").

Definition site_data : gmap string value :=
  match _data_files data_open data_scandir literal_json "data" with
  | Ok d => d
  | Raise _ => ∅
  end.

(** The entries of a directory in the order opposite to [map_to_list] *)
Definition backwards (d : gmap string node) : list (string * node) :=
  reverse (map_to_list d).

(** Every character of the name is in the ASCII range, where the
    decimal digits are [0] to [9] *)
Fixpoint ascii_only (s : string) : bool :=
  match s with
  | "" => true
  | String a r => (nat_of_ascii a <? 128) && ascii_only r
  end.

(** A page of the content tree: the index page of a folder, or one of
    its content files *)
Inductive page_ref : Type :=
| IndexOf (folder : Folder)
| FileOf (folder : Folder) (f : string * string).

(** The pages of a tree with the directory each one is written to, in
    the order of [App._build]: the index page of the folder, its content
    files, then folder by folder the pages of the folders below. *)
Fixpoint page_list (folder : Folder) (out_dir : string) {struct folder}
  : list (page_ref * string) :=
  let 'mkFolder _ nm is_idx _ subs fls := folder in
  (if is_idx then [(IndexOf folder, os_path_join out_dir nm)] else [])
  ++ List.map (fun f => (FileOf folder f, os_path_join out_dir f.2)) fls
  ++ flat_map (fun f => page_list f (os_path_join out_dir (name f))) subs.

Section Pages.

Variable open_text : string -> result string.
Variable yaml_load : string -> option value.
Variable to_html : string -> string.
Variable render : value -> Folder -> Folder -> value -> result string.

(** What [App._build] has the template engine return for a page: the
    file is parsed in full, the template chosen and rendered. *)
Definition render_page (root : Folder) (r : page_ref) : result string :=
  match r with
  | IndexOf folder =>
      page ← parse_md_file open_text yaml_load to_html
               (os_path_join (path folder) "_index.md") false;
      template ← index_template page;
      render template root folder page
  | FileOf folder f =>
      page ← parse_md_file open_text yaml_load to_html
               (os_path_join (path folder) f.1) false;
      template ← file_template folder page;
      render template root folder page
  end.

End Pages.

(** An entry at which the clean step stops: a symbolic link to a
    directory, under another name than [.git] *)
Definition refused (links : gset string) (x : string * node) : bool :=
  negb (String.eqb x.1 ".git") && node_is_dir x.2 && bool_decide (x.1 ∈ links).

(** An output root in which [assets] is a symbolic link to a directory *)
Definition linked_public : option node :=
  Some (Dir {[ ".git" := Dir {[ "HEAD" := File "ref" ]};
               "index.html" := File "old";
               "assets" := Dir {[ "logo.png" := File "logo" ]} ]}).

(** A content tree without any page, and a static directory with one
    file *)
Definition empty_root : Folder := mkFolder "content" "" false (VDict ∅) [] [].

Definition one_static : option node :=
  Some (Dir {[ "logo.png" := File "site logo" ]}).

(** * Properties *)

(** ** Strings *)

Lemma app_String a (s t : string) : String a s +:+ t = String a (s +:+ t).
Proof. reflexivity. Qed.

Lemma app_empty_r (s : string) : s +:+ "" = s.
Proof. induction s as [|a s IH]; [done|]. by rewrite app_String, IH. Qed.

Lemma app_assoc_s (s t u : string) : (s +:+ t) +:+ u = s +:+ t +:+ u.
Proof. induction s as [|a s IH]; [done|]. by rewrite !app_String, IH. Qed.

Lemma join_lines_app (xs ys : list string) :
  join_lines (xs ++ ys) = join_lines xs +:+ join_lines ys.
Proof.
  induction xs as [|x xs IH]; [done|].
  cbn [join_lines app]. by rewrite IH, app_assoc_s.
Qed.

Lemma readline_line (l rest : string) :
  is_line l = true -> readline (l +:+ rest) = (l, rest).
Proof.
  induction l as [|a l IH]; [done|]. cbn [is_line]. rewrite app_String.
  cbn [readline]. destruct (Ascii.eqb a nl) eqn:Ha.
  - intros ->%String.eqb_eq. done.
  - intros Hl. by rewrite (IH Hl).
Qed.

Lemma readline_no_newline (s : string) :
  no_newline s = true -> readline s = (s, "").
Proof.
  induction s as [|a s IH]; [done|]. cbn [no_newline readline].
  destruct (Ascii.eqb a nl); [done|]. cbn. intros Hs. by rewrite (IH Hs).
Qed.

Lemma readline_next_line (c body : string) :
  next_line c body = true -> readline (c +:+ body) = (c, body).
Proof.
  unfold next_line. intros [Hc|[Hc Hb]%andb_prop]%orb_prop.
  - by apply readline_line.
  - apply String.eqb_eq in Hb as ->. rewrite app_empty_r.
    by apply readline_no_newline.
Qed.

Lemma startswith_app (p s t : string) :
  startswith p s = true -> startswith p (s +:+ t) = true.
Proof.
  revert s. induction p as [|a p IH]; [done|]. intros [|b s]; [done|].
  rewrite app_String. cbn [startswith].
  intros [-> Hp]%andb_prop. cbn. by apply IH.
Qed.

(** ** The header loop *)

Section ParserFacts.

Variable open_text : string -> result string.
Variable yaml_load : string -> option value.
Variable to_html : string -> string.

(** The fuel of the model is never the reason the loop stops. *)
Lemma header_loop_fuel fuel i lines line rest :
  52 <= fuel + i -> header_loop fuel i lines line rest <> Raise OutOfFuel.
Proof.
  revert i lines line rest.
  induction fuel as [|fuel IH]; intros i lines line rest Hf; cbn [header_loop].
  - destruct (startswith "---" line); [done|].
    destruct (50 <? i) eqn:Hi; [done|]. apply Nat.ltb_ge in Hi. lia.
  - destruct (startswith "---" line); [done|].
    destruct (50 <? i) eqn:Hi; [done|].
    destruct (readline rest) as [line' rest']. apply IH. lia.
Qed.

(** Reading a block of header lines closed by a delimiter: the loop
    returns the block and leaves the text after the delimiter line
    unread, as long as the counter stays within its bound. *)
Lemma header_loop_block hdr : forall fuel i acc c body,
  forallb header_line hdr = true ->
  startswith "---" c = true ->
  next_line c body = true ->
  i + length hdr <= 51 ->
  length hdr <= fuel ->
  header_loop fuel i acc (readline (join_lines hdr +:+ c +:+ body)).1
                         (readline (join_lines hdr +:+ c +:+ body)).2
  = Ok (acc ++ hdr, body).
Proof.
  induction hdr as [|l hdr IH]; intros fuel i acc c body Hh Hc Hn Hi Hf.
  - cbn [join_lines]. change ("" +:+ c +:+ body) with (c +:+ body).
    rewrite (readline_next_line _ _ Hn). cbn [fst snd].
    destruct fuel; cbn [header_loop]; rewrite Hc, app_nil_r; done.
  - cbn [forallb] in Hh. apply andb_prop in Hh as [Hl Hh]. cbn [length] in Hi, Hf.
    unfold header_line in Hl. apply andb_prop in Hl as [Hl Hd].
    apply negb_true_iff in Hd.
    cbn [join_lines]. rewrite app_assoc_s.
    rewrite (readline_line _ _ Hl). cbn [fst snd].
    destruct fuel as [|fuel]; [lia|]. cbn [header_loop]. rewrite Hd.
    assert ((50 <? i) = false) as -> by (apply Nat.ltb_ge; lia).
    specialize (IH fuel (S i) (acc ++ [l]) c body Hh Hc Hn).
    destruct (readline (join_lines hdr +:+ c +:+ body)) as [l' r'].
    cbn [fst snd] in IH. rewrite IH by lia. by rewrite <- app_assoc.
Qed.

Lemma parse_md_text_block path o hdr c body header_only :
  is_line o = true -> startswith "---" o = true ->
  forallb header_line hdr = true ->
  startswith "---" c = true -> next_line c body = true ->
  length hdr <= 51 ->
  parse_md_text yaml_load to_html path (md_text o hdr c body) header_only
  = match yaml_load (join_lines hdr) with
    | None => Raise YAMLError
    | Some page =>
        if header_only then Ok page
        else py_setitem page "content" (VStr (to_html body))
    end.
Proof.
  intros Ho Hs Hh Hc Hn Hlen. unfold parse_md_text, md_text.
  rewrite (readline_line _ _ Ho), Hs. cbn [negb].
  pose proof (header_loop_block hdr 52 0 [] c body Hh Hc Hn) as H.
  destruct (readline (join_lines hdr +:+ c +:+ body)) as [l r].
  cbn [fst snd] in H. rewrite H by lia. reflexivity.
Qed.

(** A file whose first line does not start with three dashes is
    rejected, whatever follows. *)
Lemma parse_md_text_no_opening path text header_only :
  startswith "---" (readline text).1 = false ->
  parse_md_text yaml_load to_html path text header_only
  = Raise (SystemError ("not started by `---`: " +:+ path)).
Proof.
  intros H. unfold parse_md_text. destruct (readline text) as [first rest].
  cbn [fst] in H. by rewrite H.
Qed.

(** When [line] and the lines read after it, up to the bound of the
    counter, all fail to start with three dashes, the loop raises. *)
Lemma header_loop_unclosed fuel : forall i acc line rest,
  forallb (fun l => negb (startswith "---" l)) (line :: first_lines (51 - i) rest) = true ->
  52 <= fuel + i -> i <= 51 ->
  header_loop fuel i acc line rest
  = Raise (SystemError "not reached to `---` after 50 lines").
Proof.
  induction fuel as [|fuel IH]; intros i acc line rest Hl Hf Hi; [lia|].
  cbn [forallb] in Hl. apply andb_prop in Hl as [Hd Hl].
  apply negb_true_iff in Hd. cbn [header_loop]. rewrite Hd.
  destruct (50 <? i) eqn:Hb; [done|]. apply Nat.ltb_ge in Hb.
  replace (51 - i) with (S (51 - S i)) in Hl by lia. cbn [first_lines] in Hl.
  destruct (readline rest) as [line' rest']. apply IH; [done|lia..].
Qed.

End ParserFacts.

Lemma is_line_delimiter (s : string) :
  no_newline s = true -> is_line ("---" +:+ s +:+ NL) = true.
Proof.
  intros Hs. change (is_line (s +:+ NL) = true).
  induction s as [|a s IH]; [done|]. cbn [no_newline] in Hs.
  apply andb_prop in Hs as [Ha Hs]. apply negb_true_iff in Ha.
  rewrite app_String. cbn [is_line]. rewrite Ha. by apply IH.
Qed.

(** ** The claims on the parser *)

(** C2. The bound of the header loop is off: the test [i > 50] comes
    before the line is stored, so 51 lines are buffered and a closing
    delimiter on the line after them is still accepted, although the
    message of the exception speaks of 50 lines.  On a block of 51
    lines closed on the next line the parser returns the page. *)
Theorem parse_accepts_51_header_lines :
  length long_header = 51
  /\ forallb header_line long_header = true
  /\ (forall yaml_load to_html path header_only,
        parse_md_text yaml_load to_html path long_front_matter header_only
        = match yaml_load (join_lines long_header) with
          | None => Raise YAMLError
          | Some page =>
              if header_only then Ok page
              else py_setitem page "content" (VStr (to_html "Hi"))
          end)
  /\ parse_md_text flat_yaml one_paragraph "about.md" long_front_matter true
     = Ok (VDict {[ "title" := VStr "About" ]}).
Proof.
  split; [done|]. split; [by vm_compute|]. split.
  - intros yaml_load to_html path header_only.
    by apply parse_md_text_block.
  - by vm_compute.
Qed.

(** C10. Both delimiter tests look at the first three characters only:
    whatever follows the dashes on the opening line and on the closing
    line, the block between them is the header and the text after the
    closing line is the body. *)
Theorem delimiters_match_by_prefix
    (yaml_load : string -> option value) (to_html : string -> string)
    (path s1 s2 : string) (hdr : list string) (body : string) (header_only : bool) :
  no_newline s1 = true -> no_newline s2 = true ->
  forallb header_line hdr = true -> length hdr <= 51 ->
  parse_md_text yaml_load to_html path
    (md_text ("---" +:+ s1 +:+ NL) hdr ("---" +:+ s2 +:+ NL) body) header_only
  = match yaml_load (join_lines hdr) with
    | None => Raise YAMLError
    | Some page =>
        if header_only then Ok page
        else py_setitem page "content" (VStr (to_html body))
    end.
Proof.
  intros H1 H2 Hh Hlen. apply parse_md_text_block; try done.
  - by apply is_line_delimiter.
  - unfold next_line. by rewrite is_line_delimiter.
Qed.

Lemma delimiters_match_by_prefix_witness :
  parse_md_text flat_yaml one_paragraph "post.md"
    (md_text ("---" +:+ "- draft" +:+ NL) ["title: About" +:+ NL]
             ("---" +:+ " title" +:+ NL) "Hi") false
  = Ok (VDict (<["content" := VStr (one_paragraph "Hi")]> {[ "title" := VStr "About" ]})).
Proof.
  rewrite (delimiters_match_by_prefix flat_yaml one_paragraph "post.md"
             "- draft" " title" ["title: About" +:+ NL] "Hi" false);
    [reflexivity | reflexivity | reflexivity | reflexivity | simpl; lia].
Defined.

(** C3, as it holds.  For a file delimited by two lines that start with
    three dashes, with a block of at most 50 lines that decodes to a
    mapping: read header-only, the page is that mapping; read in full,
    the page has under [content] the HTML of exactly the text after the
    closing line, and under every other key what the block declares. *)
Theorem parse_md_text_page
    (yaml_load : string -> option value) (to_html : string -> string)
    (path o : string) (hdr : list string) (c body : string)
    (d : gmap string value) :
  is_line o = true -> startswith "---" o = true ->
  forallb header_line hdr = true -> length hdr <= 50 ->
  startswith "---" c = true -> next_line c body = true ->
  yaml_load (join_lines hdr) = Some (VDict d) ->
  parse_md_text yaml_load to_html path (md_text o hdr c body) true = Ok (VDict d)
  /\ exists page,
      parse_md_text yaml_load to_html path (md_text o hdr c body) false
      = Ok (VDict page)
      /\ page !! "content" = Some (VStr (to_html body))
      /\ forall k, k <> "content" -> page !! k = d !! k.
Proof.
  intros Ho Hs Hh Hlen Hc Hn Hy.
  rewrite !parse_md_text_block by (done || lia). rewrite Hy. split; [done|].
  eexists. split; [reflexivity|]. split.
  - apply lookup_insert_eq.
  - intros k Hk. by apply lookup_insert_ne.
Qed.

Lemma parse_md_text_page_witness :
  parse_md_text flat_yaml one_paragraph "about.md"
    (md_text ("---" +:+ NL) ["title: About" +:+ NL] "---" "") true
  = Ok (VDict {[ "title" := VStr "About" ]}).
Proof.
  apply (parse_md_text_page flat_yaml one_paragraph "about.md" ("---" +:+ NL)
           ["title: About" +:+ NL] "---" "" {[ "title" := VStr "About" ]});
    [reflexivity | reflexivity | reflexivity | simpl; lia
    | reflexivity | reflexivity | reflexivity].
Defined.

(** C3, as stated, fails: a key [content] declared in the front matter
    does not keep its decoded value in a full parse, the HTML of the body
    replaces it. *)
Lemma parse_md_text_content_key_replaced :
  ~ (forall (yaml_load : string -> option value) (to_html : string -> string)
            (path o : string) (hdr : list string) (c body : string)
            (d : gmap string value),
        is_line o = true -> startswith "---" o = true ->
        forallb header_line hdr = true -> length hdr <= 50 ->
        startswith "---" c = true -> next_line c body = true ->
        yaml_load (join_lines hdr) = Some (VDict d) ->
        exists page,
          parse_md_text yaml_load to_html path (md_text o hdr c body) false
          = Ok (VDict page)
          /\ (forall k v, d !! k = Some v -> page !! k = Some v)
          /\ page !! "content" = Some (VStr (to_html body))).
Proof.
  intros H.
  destruct (H flat_yaml one_paragraph "post.md" ("---" +:+ NL)
              ["content: draft" +:+ NL] ("---" +:+ NL) "Hi"
              {[ "content" := VStr "draft" ]})
    as (page & _ & Hk & Hc); [reflexivity | reflexivity | reflexivity | simpl; lia
                             | reflexivity | reflexivity | reflexivity |].
  specialize (Hk "content" (VStr "draft") (lookup_singleton_eq _ _)).
  rewrite Hc in Hk. discriminate Hk.
Qed.

(** ** The name derivation *)

Lemma skip_digits_app ds rest :
  digits ds = true -> skip_digits (ds +:+ "." +:+ rest) = "." +:+ rest.
Proof.
  induction ds as [|a ds IH]; [done|]. cbn [digits].
  destruct ds as [|b ds].
  - intros Ha. change (skip_digits (String a ("." +:+ rest)) = "." +:+ rest).
    cbn [skip_digits]. by rewrite Ha.
  - intros [Ha Hd]%andb_prop. rewrite app_String. cbn [skip_digits].
    rewrite Ha. by apply IH.
Qed.

Lemma until_newline_id s : no_newline s = true -> until_newline s = s.
Proof.
  induction s as [|a s IH]; [done|]. cbn [no_newline until_newline].
  destruct (Ascii.eqb a nl); [done|]. cbn. intros Hs. by rewrite IH.
Qed.

(** What [get_name] returns on digits, a dot and a rest: the rest up to
    its first newline, or the whole name when that is empty. *)
Lemma get_name_prefix ds rest :
  digits ds = true ->
  get_name (ds +:+ "." +:+ rest)
  = match until_newline rest with
    | "" => ds +:+ "." +:+ rest
    | group => group
    end.
Proof.
  intros Hd. destruct ds as [|a ds]; [done|].
  assert (is_digit a = true) as Ha.
  { cbn [digits] in Hd. destruct ds; [done|]. by apply andb_prop in Hd as [? _]. }
  rewrite app_String. cbn [get_name]. rewrite Ha.
  assert (skip_digits (ds +:+ "." +:+ rest) = "." +:+ rest) as ->.
  { destruct ds as [|b ds]; [done|]. apply skip_digits_app.
    cbn [digits] in Hd. by apply andb_prop in Hd as [_ ?]. }
  reflexivity.
Qed.

(** C8, as it holds.  [get_name] removes one leading prefix of digits
    and a dot when a character other than the newline follows the dot,
    and returns what follows up to the first newline, dots included: so
    the rest itself when it has no newline.  When nothing follows the
    dot, or a newline does, the name is returned as it is, prefix
    included; and so is a name of ASCII characters without such a
    prefix.  The three names of the specification come out as it
    says. *)
Theorem get_name_strips_one_prefix :
  (forall ds rest,
      digits ds = true -> until_newline rest <> "" ->
      get_name (ds +:+ "." +:+ rest) = until_newline rest
      /\ (no_newline rest = true -> get_name (ds +:+ "." +:+ rest) = rest))
  /\ (forall ds rest,
      digits ds = true -> until_newline rest = "" ->
      get_name (ds +:+ "." +:+ rest) = ds +:+ "." +:+ rest)
  /\ (forall s, ascii_only s = true -> numbered s = false -> get_name s = s)
  /\ get_name "12.projects" = "projects"
  /\ get_name "projects" = "projects"
  /\ get_name "003.a-b.c" = "a-b.c".
Proof.
  split; [|split; [|split; [|by vm_compute]]].
  - intros ds rest Hd Hr. rewrite (get_name_prefix ds rest Hd).
    assert (match until_newline rest with
            | "" => ds +:+ "." +:+ rest
            | String a g => String a g
            end = until_newline rest) as ->.
    { by destruct (until_newline rest). }
    split; [done|]. intros Hn. by apply until_newline_id.
  - intros ds rest Hd Hr. by rewrite (get_name_prefix ds rest Hd), Hr.
  - intros [|a r] _; [done|]. cbn [numbered get_name].
    destruct (is_digit a); [|done]. cbn [andb].
    destruct (skip_digits r) as [|b t]; [done|].
    cbn [startswith]. destruct (Ascii.eqb_spec "."%char b) as [<-|Hb]; [done|].
    intros _. destruct b as [[] [] [] [] [] [] [] []]; try done.
Qed.

Lemma get_name_strips_one_prefix_witness :
  (get_name ("2024" +:+ "." +:+ "10.notes") = until_newline "10.notes"
   /\ (no_newline "10.notes" = true
       -> get_name ("2024" +:+ "." +:+ "10.notes") = "10.notes"))
  /\ get_name ("12" +:+ "." +:+ "") = "12" +:+ "." +:+ ""
  /\ get_name ".hidden" = ".hidden".
Proof.
  split; [|split].
  - apply (proj1 get_name_strips_one_prefix "2024" "10.notes"); [reflexivity|].
    vm_compute. discriminate.
  - apply (proj1 (proj2 get_name_strips_one_prefix) "12" ""); reflexivity.
  - apply (proj1 (proj2 (proj2 get_name_strips_one_prefix)) ".hidden"); reflexivity.
Defined.

(** C8, as stated, fails on a name that ends with its prefix: the
    pattern wants a character after the dot, so [12.] does not match and
    is returned whole, prefix included, not stripped to the empty
    name. *)
Lemma get_name_keeps_bare_prefix :
  ~ (forall ds rest, digits ds = true -> get_name (ds +:+ "." +:+ rest) = rest).
Proof.
  intros H. specialize (H "12" "" eq_refl). vm_compute in H. discriminate H.
Qed.

(** ** The content tree scanner *)

Lemma insert_by_perm {A : Type} (key : A -> string) (x : A) (l : list A) :
  insert_by key x l ≡ₚ x :: l.
Proof.
  induction l as [|y l IH]; [done|]. cbn [insert_by].
  destruct (String.leb (key x) (key y)); [done|].
  rewrite IH. apply Permutation_swap.
Qed.

Lemma sort_by_perm {A : Type} (key : A -> string) (l : list A) :
  sort_by key l ≡ₚ l.
Proof.
  induction l as [|x l IH]; [done|]. unfold sort_by. cbn [foldr].
  rewrite insert_by_perm. by f_equiv.
Qed.

Lemma Forall2_elem_r {A B : Type} (P : A -> B -> Prop) l k y :
  Forall2 P l k -> y ∈ k -> exists x, x ∈ l /\ P x y.
Proof.
  induction 1 as [|x y' l k Hxy _ IH]; intros Hy.
  - by apply not_elem_of_nil in Hy.
  - apply elem_of_cons in Hy as [->|Hy].
    + exists x. split; [apply list_elem_of_here|done].
    + destruct (IH Hy) as (x' & Hx' & HP). exists x'.
      split; [by apply list_elem_of_further|done].
Qed.

Lemma Forall2_elem_l {A B : Type} (P : A -> B -> Prop) l k x :
  Forall2 P l k -> x ∈ l -> exists y, y ∈ k /\ P x y.
Proof.
  induction 1 as [|x' y l k Hxy _ IH]; intros Hx.
  - by apply not_elem_of_nil in Hx.
  - apply elem_of_cons in Hx as [->|Hx].
    + exists y. split; [apply list_elem_of_here|done].
    + destruct (IH Hx) as (y' & Hy' & HP). exists y'.
      split; [by apply list_elem_of_further|done].
Qed.

Section ScanFacts.

Variable open_text : string -> result string.
Variable yaml_load : string -> option value.
Variable to_html : string -> string.
Variable scandir : string -> result (list DirEntry.t).

Local Abbreviation scan := (scan_entry open_text yaml_load to_html).
Local Abbreviation Folder_ := (Folder_init open_text yaml_load to_html scandir).

(** What the loop of [_scan] has stored when it ends without an
    exception: the flag is set by an index entry, the content entries
    are appended in order, and so are the folders built from the folder
    entries. *)
Lemma scan_loop (init : string -> string -> result Folder) entries :
  forall self self',
  for_each (scan init) entries self = Ok self' ->
  path self' = path self /\ name self' = name self
  /\ is_index self' = is_index self || existsb is_index_entry entries
  /\ files self' = files self ++ map file_pair (List.filter is_content_entry entries)
  /\ exists new,
      folders self' = folders self ++ new
      /\ Forall2 (fun x f => init (DirEntry.path (path self) x)
                                  (get_name (DirEntry.name x)) = Ok f)
                 (List.filter is_folder_entry entries) new.
Proof.
  induction entries as [|x entries IH]; intros self self' H; cbn [for_each] in H.
  - injection H as <-. rewrite orb_false_r, !app_nil_r.
    repeat split; try done. exists []. by rewrite app_nil_r.
  - destruct (scan init self x) as [self1|e] eqn:Hx; [|done].
    cbn [mbind result_bind] in H. apply IH in H as (Hp & Hn & Hi & Hf & new & Hs & Hnew).
    destruct self as [sp sn b ix subs fls].
    unfold scan_entry in Hx.
    cbn [existsb List.filter]. unfold is_index_entry, is_content_entry, is_folder_entry.
    destruct (DirEntry.is_file x && endswith ".md" (DirEntry.name x)) eqn:Hmd.
    + destruct (String.eqb (DirEntry.name x) "_index.md") eqn:Hix.
      * destruct (parse_md_file _ _ _ _ _) as [page|e]; [|done].
        injection Hx as <-. cbn [path name is_index index files folders] in *. rewrite Hi, orb_true_r.
        repeat split; try done. by exists new.
      * injection Hx as <-. cbn [path name is_index index files folders] in *. rewrite Hf, <- app_assoc.
        repeat split; try done. by exists new.
    + cbn [negb andb].
      destruct (DirEntry.is_dir x && negb (startswith "." (DirEntry.name x))) eqn:Hd.
      * destruct (init _ _) as [f|e] eqn:Hinit; [|done].
        injection Hx as <-. cbn [path name is_index index files folders] in *.
        repeat split; try done. exists (f :: new).
        rewrite Hs, <- app_assoc. split; [done|].
        by constructor.
      * injection Hx as <-. repeat split; try done. by exists new.
Qed.

(** C6, as it holds.  The scanner records exactly this: the folder has
    an index when an entry that is a file (a regular file, or a link to
    one) is named [_index.md]; its content files are the other entries
    that are files and end in [.md], dotfiles included, each with its
    derived name; its subfolders are the scans of the entries that are
    directories (or links to one) and do not start with a dot.  Nothing
    else is recorded. *)
Theorem scan_records_exactly depth dir nm folder entries :
  Folder_ (S depth) dir nm = Ok folder ->
  scandir dir = Ok entries ->
  (is_index folder = true <->
     exists x, x ∈ entries /\ DirEntry.is_file x = true
               /\ DirEntry.name x = "_index.md")
  /\ (forall n d, (n, d) ∈ files folder <->
        exists x, x ∈ entries /\ DirEntry.is_file x = true
                  /\ DirEntry.name x = n /\ endswith ".md" n = true
                  /\ n <> "_index.md" /\ d = (splitext (get_name n)).1)
  /\ (forall f, f ∈ folders folder <->
        exists x, x ∈ entries /\ DirEntry.is_dir x = true
                  /\ startswith "." (DirEntry.name x) = false
                  /\ DirEntry.is_file x && endswith ".md" (DirEntry.name x) = false
                  /\ Folder_ depth (DirEntry.path dir x)
                                 (get_name (DirEntry.name x)) = Ok f).
Proof.
  intros H Hs. cbn [Folder_init] in H. rewrite Hs in H. cbn in H.
  destruct (for_each _ entries _) as [self|e] eqn:Hloop; [|done]. cbn in H.
  apply scan_loop in Hloop as (Hp & Hn & Hi & Hf & new & Hsub & Hnew).
  destruct self as [sp sn b ix subs fls]. injection H as <-.
  cbn [path name is_index index files folders] in *. subst sp sn. split; [|split].
  - rewrite Hi. cbn [orb]. rewrite existsb_exists. split.
    + intros (x & Hx & Hc). exists x. unfold is_index_entry in Hc.
      apply andb_prop in Hc as [[Hfile _]%andb_prop Hname%String.eqb_eq].
      by rewrite list_elem_of_In.
    + intros (x & Hx & Hfile & Hname). exists x. rewrite <- list_elem_of_In.
      split; [done|]. unfold is_index_entry. by rewrite Hfile, Hname.
  - intros n d. rewrite sort_by_perm, Hf. cbn [app].
    rewrite list_elem_of_In, in_map_iff. split.
    + intros (x & [= <- <-] & Hx). apply filter_In in Hx as [Hx Hc].
      exists x. unfold is_content_entry in Hc.
      apply andb_prop in Hc as [[Hfile Hmd]%andb_prop Hne%negb_true_iff].
      apply String.eqb_neq in Hne. by rewrite list_elem_of_In.
    + intros (x & Hx & Hfile & <- & Hmd & Hne & ->). exists x. split; [done|].
      apply filter_In. split; [by apply list_elem_of_In|].
      unfold is_content_entry. rewrite Hfile, Hmd. cbn.
      by apply negb_true_iff, String.eqb_neq.
  - intros f. rewrite sort_by_perm, Hsub. cbn [app]. split.
    + intros Hin. eapply Forall2_elem_r in Hin as (x & Hx & Hinit); [|done].
      apply list_elem_of_In, filter_In in Hx as [Hx Hc]. exists x.
      unfold is_folder_entry in Hc.
      apply andb_prop in Hc as [[Hfile%negb_true_iff Hdir]%andb_prop Hdot%negb_true_iff].
      by rewrite list_elem_of_In.
    + intros (x & Hx & Hdir & Hdot & Hfile & Hinit).
      assert (x ∈ List.filter is_folder_entry entries) as Hin.
      { apply list_elem_of_In, filter_In. split; [by apply list_elem_of_In|].
        unfold is_folder_entry. by rewrite Hfile, Hdir, Hdot. }
      eapply Forall2_elem_l in Hin as (f' & Hf' & Hinit'); [|done].
      cbn beta in Hinit'. by replace f with f' by congruence.
Qed.

End ScanFacts.

Lemma scan_records_exactly_witness :
  exists x, x ∈ site_entries /\ DirEntry.is_file x = true
            /\ DirEntry.name x = "_index.md".
Proof.
  apply (proj1 (proj1 (scan_records_exactly site_open flat_yaml one_paragraph
                         site_scandir 7 "content" "" site_folder site_entries
                         ltac:(vm_compute; reflexivity) ltac:(reflexivity)))).
  reflexivity.
Defined.

(** C6, as stated, fails: an entry whose name starts with a dot, or that
    is a symbolic link, is not always left out.  The dotfile [.draft.md]
    of the example site is recorded as a content file (and so is the
    link [latest.md]). *)
Lemma scan_records_dotfiles_and_links :
  ~ (forall (open_text : string -> result string)
            (yaml_load : string -> option value) (to_html : string -> string)
            (scandir : string -> result (list DirEntry.t))
            depth dir nm folder entries x,
        Folder_init open_text yaml_load to_html scandir (S depth) dir nm = Ok folder ->
        scandir dir = Ok entries ->
        x ∈ entries ->
        startswith "." (DirEntry.name x) = true \/ DirEntry.is_symlink x = true ->
        forall d, (DirEntry.name x, d) ∉ files folder).
Proof.
  intros H.
  apply (H site_open flat_yaml one_paragraph site_scandir 7 "content" ""
           site_folder site_entries (regular_file ".draft.md")
           ltac:(vm_compute; reflexivity) ltac:(reflexivity)
           ltac:(vm_compute; set_solver) ltac:(left; reflexivity) ".draft").
  vm_compute. set_solver.
Qed.

(** ** The recursive render *)

Lemma bind_ok {A B : Type} (m : result A) (k : A -> result B) (b : B) :
  m ≫= k = Ok b -> exists a, m = Ok a /\ k a = Ok b.
Proof. destruct m as [a|e]; [|done]. intros H. by exists a. Qed.

Section BuildFacts.

Variable open_text : string -> result string.
Variable yaml_load : string -> option value.
Variable to_html : string -> string.
Variable render : value -> Folder -> Folder -> value -> result string.

Local Abbreviation parse := (parse_md_file open_text yaml_load to_html).
Local Abbreviation build_index_ := (build_index open_text yaml_load to_html render).
Local Abbreviation build_file_ := (build_file open_text yaml_load to_html render).
Local Abbreviation build_ := (_build open_text yaml_load to_html render).

(** A page parsed in full is a mapping: the assignment of [content]
    raises on anything else. *)
Lemma parse_full_dict file page :
  parse file false = Ok page -> exists p, page = VDict p.
Proof.
  unfold parse_md_file. intros (text & _ & H)%bind_ok. unfold parse_md_text in H.
  destruct (readline text) as [first rest].
  destruct (negb (startswith "---" first)); [done|].
  destruct (readline rest) as [line rest'].
  apply bind_ok in H as ([lines body] & _ & H).
  destruct (yaml_load (join_lines lines)) as [[| | | | |d]|]; try done.
  injection H as <-. eauto.
Qed.

(** C4. Every rendered page gets its template by this precedence: the
    [template] key of its own front matter when it has one; otherwise,
    for a content file, the [files_template] key of the index of its
    folder when there is one; otherwise [index.html] for an index page
    and [page.html] for a content file.  The index of the folder plays
    no part in the template of an index page. *)
Theorem template_precedence root folder out_dir :
  (forall effs,
      is_index folder = true ->
      build_index_ root folder out_dir = Ok effs ->
      exists p c,
        parse (os_path_join (path folder) "_index.md") false = Ok (VDict p)
        /\ render match p !! "template" with
                  | Some t => t
                  | None => VStr "index.html"
                  end root folder (VDict p) = Ok c
        /\ effs = [Mkdir (os_path_join out_dir (name folder));
                   Write (os_path_join (os_path_join out_dir (name folder)) "index.html") c])
  /\ (forall f effs,
      build_file_ root folder out_dir f = Ok effs ->
      exists p ix c,
        parse (os_path_join (path folder) f.1) false = Ok (VDict p)
        /\ index folder = VDict ix
        /\ render match p !! "template" with
                  | Some t => t
                  | None => match ix !! "files_template" with
                            | Some t => t
                            | None => VStr "page.html"
                            end
                  end root folder (VDict p) = Ok c
        /\ effs = [Mkdir (os_path_join out_dir f.2);
                   Write (os_path_join (os_path_join out_dir f.2) "index.html") c]).
Proof.
  split.
  - intros effs Hi H. unfold build_index in H. rewrite Hi in H.
    apply bind_ok in H as (page & Hp & H).
    destruct (parse_full_dict _ _ Hp) as [p ->].
    apply bind_ok in H as (t & Ht & H). apply bind_ok in H as (w & Hw & H).
    unfold _write in Hw. apply bind_ok in Hw as (c & Hc & Hw).
    injection Hw as <-. injection H as <-. injection Ht as <-.
    exists p, c. split; [done|]. split; [|done].
    by destruct (p !! "template").
  - intros f effs H. unfold build_file in H.
    apply bind_ok in H as (page & Hp & H).
    destruct (parse_full_dict _ _ Hp) as [p ->].
    apply bind_ok in H as (t & Ht & H). apply bind_ok in H as (w & Hw & H).
    unfold _write in Hw. apply bind_ok in Hw as (c & Hc & Hw).
    injection Hw as <-. injection H as <-.
    unfold file_template in Ht. apply bind_ok in Ht as (dflt & Hd & Ht).
    destruct (index folder) as [| | | | |ix] eqn:Hix; try done.
    injection Hd as <-. injection Ht as <-.
    exists p, ix, c. split; [done|]. split; [done|]. split; [|done].
    destruct (p !! "template"); [done|]. by destruct (ix !! "files_template").
Qed.

(** The two effects of a rendered page: its directory, then its file. *)
Lemma build_index_effects root folder out_dir effs :
  is_index folder = true ->
  build_index_ root folder out_dir = Ok effs ->
  exists c, effs = [Mkdir (os_path_join out_dir (name folder));
                    Write (os_path_join (os_path_join out_dir (name folder))
                                        "index.html") c].
Proof.
  intros Hi H. unfold build_index in H. rewrite Hi in H.
  apply bind_ok in H as (page & _ & H). apply bind_ok in H as (t & _ & H).
  apply bind_ok in H as (w & Hw & H). unfold _write in Hw.
  apply bind_ok in Hw as (c & _ & Hw). injection Hw as <-. injection H as <-.
  by exists c.
Qed.

Lemma build_file_effects root folder out_dir f effs :
  build_file_ root folder out_dir f = Ok effs ->
  exists c, effs = [Mkdir (os_path_join out_dir f.2);
                    Write (os_path_join (os_path_join out_dir f.2) "index.html") c].
Proof.
  intros H. unfold build_file in H.
  apply bind_ok in H as (page & _ & H). apply bind_ok in H as (t & _ & H).
  apply bind_ok in H as (w & Hw & H). unfold _write in Hw.
  apply bind_ok in Hw as (c & _ & Hw). injection Hw as <-. injection H as <-.
  by exists c.
Qed.

Lemma for_each_log {A : Type} (body : A -> result (list effect)) xs :
  forall acc log,
  for_each (fun log x => w ← body x; Ok (log ++ w)) xs acc = Ok log ->
  acc ⊆ log /\ forall x, x ∈ xs -> exists w, body x = Ok w /\ w ⊆ log.
Proof.
  induction xs as [|x xs IH]; intros acc log H; cbn [for_each] in H.
  - injection H as <-. split; [done|]. intros x Hx. by apply not_elem_of_nil in Hx.
  - apply bind_ok in H as (acc' & Hx & H). apply bind_ok in Hx as (w & Hw & Hx).
    injection Hx as <-. apply IH in H as [Hacc Hxs]. split.
    + intros e He. apply Hacc, elem_of_app. by left.
    + intros y [->|Hy]%elem_of_cons; [|by apply Hxs].
      exists w. split; [done|]. intros e He. apply Hacc, elem_of_app. by right.
Qed.

Lemma each_log {A : Type} (body : A -> result (list effect)) xs log x :
  each body xs = Ok log -> x ∈ xs -> exists w, body x = Ok w /\ w ⊆ log.
Proof. intros H Hx. apply for_each_log in H as [_ H]. by apply H. Qed.

Lemma build_unfold root folder out_dir :
  build_ root folder out_dir
  = (e1 ← build_index_ root folder out_dir;
     e2 ← each (build_file_ root folder out_dir) (files folder);
     e3 ← each (fun f => build_ root f (os_path_join out_dir (name f))) (folders folder);
     Ok (e1 ++ e2 ++ e3)).
Proof. by destruct folder. Qed.

(** Where the pages of a build go.  For a folder of the tree rendered
    into [out_f]: each content file is written to
    [out_f/<derived name>/index.html]; the index page is written to
    [out_f/<folder name>/index.html], which is [out_f/index.html] for
    the root, whose name is empty, and one level below [out_f] for every
    other folder. *)
Lemma build_paths root folder out_dir f out_f log :
  located folder out_dir f out_f ->
  build_ root folder out_dir = Ok log ->
  (is_index f = true ->
     exists c, Write (os_path_join (os_path_join out_f (name f)) "index.html") c ∈ log)
  /\ (forall x, x ∈ files f ->
        exists c, Write (os_path_join (os_path_join out_f x.2) "index.html") c ∈ log).
Proof.
  intros Hloc. revert log.
  induction Hloc as [folder out_dir|folder out_dir child f out_f Hc _ IH];
    intros log H; rewrite build_unfold in H;
    apply bind_ok in H as (e1 & H1 & H); apply bind_ok in H as (e2 & H2 & H);
    apply bind_ok in H as (e3 & H3 & H); injection H as <-.
  - split.
    + intros Hi.
      destruct (build_index_effects root folder out_dir e1 Hi H1) as (c & ->).
      exists c. apply elem_of_app. left. set_solver.
    + intros x Hx. destruct (each_log _ _ _ _ H2 Hx) as (w & Hw & Hsub).
      destruct (build_file_effects root folder out_dir x w Hw) as (c & ->).
      exists c. apply elem_of_app. right. apply elem_of_app. left.
      apply Hsub. set_solver.
  - destruct (each_log _ _ _ _ H3 Hc) as (w & Hw & Hsub).
    destruct (IH w Hw) as [Hidx Hfiles].
    assert (w ⊆ e1 ++ e2 ++ e3) as Hin.
    { intros e He. apply elem_of_app. right. apply elem_of_app. right. by apply Hsub. }
    split.
    + intros Hi. destruct (Hidx Hi) as [c Hcin]. exists c. by apply Hin.
    + intros x Hx. destruct (Hfiles x Hx) as [c Hcin]. exists c. by apply Hin.
Qed.

End BuildFacts.

Lemma template_precedence_witness :
  exists p ix c,
    parse_md_file site_open flat_yaml one_paragraph
      (os_path_join (path site_blog) ("second.md", "second").1) false = Ok (VDict p)
    /\ index site_blog = VDict ix
    /\ site_render match p !! "template" with
                   | Some t => t
                   | None => match ix !! "files_template" with
                             | Some t => t
                             | None => VStr "page.html"
                             end
                   end site_folder site_blog (VDict p) = Ok c
    /\ [Mkdir "public/blog/second";
        Write "public/blog/second/index.html" ("post.html: " +:+ one_paragraph "Two")]
       = [Mkdir (os_path_join "public/blog" ("second.md", "second").2);
          Write (os_path_join (os_path_join "public/blog" ("second.md", "second").2) "index.html") c].
Proof.
  apply (proj2 (template_precedence site_open flat_yaml one_paragraph site_render
                  site_folder site_blog "public/blog") ("second.md", "second")).
  vm_compute. reflexivity.
Defined.

(** C1. The index page of a folder other than the root is not written
    to the output directory of the folder: [_build] is called for the
    folder [blog] with [public/blog], and joins the name of the folder
    once more before it writes, so the index of [blog] lands in
    [public/blog/blog/index.html].  The index of the root, whose name is
    empty, and the content files are where the claim puts them. *)
Theorem build_writes_folder_index_one_level_down :
  located site_folder "public" site_blog "public/blog"
  /\ is_index site_blog = true
  /\ site_build = Ok site_log
  /\ Write "public/blog/blog/index.html" ("index.html: " +:+ one_paragraph "Posts")
     ∈ site_log
  /\ forall c, Write "public/blog/index.html" c ∉ site_log.
Proof.
  split; [|split; [|split; [|split]]].
  - apply (located_below site_folder "public" site_blog site_blog "public/blog").
    + vm_compute. set_solver.
    + exact (located_here site_blog "public/blog").
  - by vm_compute.
  - by vm_compute.
  - unfold site_log. set_solver.
  - intros c Hc. unfold site_log in Hc.
    repeat (apply elem_of_cons in Hc as [Hc|Hc]; [discriminate Hc|]).
    by apply not_elem_of_nil in Hc.
Qed.

(** ** The clean step and the static copy *)

Lemma shutil_copy_spec c n out out1 :
  shutil_copy c n out = Ok out1 ->
  (forall k, k <> n -> entries_of out1 !! k = entries_of out !! k)
  /\ match entries_of out !! n with
     | Some (Dir sub) => entries_of out1 !! n = Some (Dir (<[n := File c]> sub))
     | _ => entries_of out1 !! n = Some (File c)
     end.
Proof.
  unfold shutil_copy. destruct out as [[|d]|]; try done. cbn [entries_of].
  destruct (d !! n) as [[c0|sub]|] eqn:Hn.
  - intros [= <-]. cbn [entries_of]. split; [|apply lookup_insert_eq].
    intros k Hk. by rewrite lookup_insert_ne.
  - destruct (sub !! n) as [[]|]; try done;
      intros [= <-]; cbn [entries_of]; (split; [|apply lookup_insert_eq]);
      intros k Hk; by rewrite lookup_insert_ne.
  - intros [= <-]. cbn [entries_of]. split; [|apply lookup_insert_eq].
    intros k Hk. by rewrite lookup_insert_ne.
Qed.

Lemma shutil_copytree_spec t n out out1 :
  shutil_copytree t n out = Ok out1 ->
  (forall k, k <> n -> entries_of out1 !! k = entries_of out !! k)
  /\ entries_of out !! n = None
  /\ entries_of out1 !! n = Some (Dir t).
Proof.
  unfold shutil_copytree. destruct out as [[|d]|]; try done; cbn [entries_of].
  - destruct (d !! n) eqn:Hn; [done|]. intros [= <-]. cbn [entries_of].
    split; [|split; [done|apply lookup_insert_eq]].
    intros k Hk. by rewrite lookup_insert_ne.
  - intros [= <-]. cbn [entries_of].
    split; [|split; [done|apply lookup_singleton_eq]].
    intros k Hk. by rewrite lookup_singleton_ne.
Qed.

Section DiskFacts.

Variable listing : gmap string node -> list (string * node).
Hypothesis listing_perm : forall d, listing d ≡ₚ map_to_list d.

Lemma listing_NoDup d : NoDup (listing d).*1.
Proof. rewrite listing_perm. apply NoDup_fst_map_to_list. Qed.

Lemma listing_elem d k v : (k, v) ∈ listing d <-> d !! k = Some v.
Proof. rewrite listing_perm. apply elem_of_map_to_list. Qed.

Lemma clean_entry_spec links cur n v :
  cur !! n = Some v ->
  clean_entry links cur (n, v)
  = if refused links (n, v)
    then Raise (OSError "Cannot call rmtree on a symbolic link")
    else Ok (if String.eqb n ".git" then cur else delete n cur).
Proof.
  intros Hv. unfold clean_entry, refused, rmtree, unlink. cbn [fst snd].
  rewrite Hv. destruct (String.eqb n ".git"); [done|]. cbn [negb andb].
  destruct v as [c|sub]; cbn [node_is_dir andb]; [done|].
  by destruct (decide (n ∈ links)) as [Hl|Hl];
    [rewrite (bool_decide_eq_true_2 _ Hl)|rewrite (bool_decide_eq_false_2 _ Hl)].
Qed.

(** The loop of the clean step, on entries that are all in the
    directory: it raises when it meets a symbolic link to a directory
    that is not named [.git], and otherwise removes the entries not
    named [.git]. *)
Lemma clean_loop links xs : forall cur,
  NoDup xs.*1 ->
  (forall k v, (k, v) ∈ xs -> cur !! k = Some v) ->
  if existsb (refused links) xs
  then for_each (clean_entry links) xs cur
       = Raise (OSError "Cannot call rmtree on a symbolic link")
  else exists cur',
    for_each (clean_entry links) xs cur = Ok cur'
    /\ forall k, cur' !! k = if decide (k <> ".git" /\ k ∈ xs.*1) then None
                             else cur !! k.
Proof.
  induction xs as [|[n v] xs IH]; intros cur Hnd Hin.
  - exists cur. split; [done|]. intros k. rewrite decide_False; [done|].
    intros [_ H]. by apply not_elem_of_nil in H.
  - cbn [fmap list_fmap fst] in Hnd. apply NoDup_cons in Hnd as [Hn Hnd].
    assert (cur !! n = Some v) as Hv by (apply Hin; left).
    cbn [for_each existsb]. rewrite (clean_entry_spec links cur n v Hv).
    destruct (refused links (n, v)) eqn:Href; [done|].
    cbn [mbind result_bind orb fmap list_fmap fst].
    destruct (String.eqb_spec n ".git") as [->|Hgit].
    + specialize (IH cur Hnd).
      destruct (existsb (refused links) xs).
      { apply IH. intros k w Hk. apply Hin. by right. }
      destruct IH as (cur' & Hloop & Hcur').
      { intros k w Hk. apply Hin. by right. }
      exists cur'. split; [done|]. intros k. rewrite Hcur'.
      apply decide_ext. rewrite elem_of_cons. tauto.
    + specialize (IH (delete n cur) Hnd).
      assert (forall k w, (k, w) ∈ xs -> delete n cur !! k = Some w) as Hin'.
      { intros k w Hk. rewrite lookup_delete_ne; [apply Hin; by right|].
        intros <-. apply Hn. apply list_elem_of_fmap. by exists (n, w). }
      destruct (existsb (refused links) xs); [by apply IH|].
      destruct (IH Hin') as (cur' & Hloop & Hcur').
      exists cur'. split; [done|]. intros k. rewrite Hcur'.
      destruct (decide (k = n)) as [->|Hk].
      * rewrite lookup_delete_eq, (decide_False (P := _ /\ n ∈ xs.*1)) by tauto.
        rewrite decide_True; [done|]. split; [done|]. left.
      * rewrite lookup_delete_ne by done.
        apply decide_ext. rewrite elem_of_cons. tauto.
Qed.

(** Whether the clean step meets such a link does not depend on the
    order of the entries. *)
Lemma refused_listing links d :
  existsb (refused links) (listing d) = true
  <-> exists k sub, d !! k = Some (Dir sub) /\ k <> ".git" /\ k ∈ links.
Proof.
  rewrite existsb_exists. split.
  - intros ([k v] & Hin & Href). apply list_elem_of_In, listing_elem in Hin.
    unfold refused in Href. cbn [fst snd] in Href.
    apply andb_prop in Href as [[Hgit Hdir]%andb_prop Hl].
    destruct v as [c|sub]; [done|]. exists k, sub. split; [done|]. split.
    + intros ->. by rewrite String.eqb_refl in Hgit.
    + by apply bool_decide_eq_true_1 in Hl.
  - intros (k & sub & Hk & Hgit & Hl). exists (k, Dir sub). split.
    + by apply list_elem_of_In, listing_elem.
    + unfold refused. cbn [fst snd node_is_dir].
      rewrite (bool_decide_eq_true_2 _ Hl).
      by destruct (String.eqb_spec k ".git").
Qed.

(** What the clean step does on a directory: it raises when an entry
    other than [.git] is a symbolic link to a directory, and otherwise
    leaves [.git] as it is and nothing else. *)
Lemma clean_dir links d :
  if existsb (refused links) (listing d)
  then clean listing links (Some (Dir d))
       = Raise (OSError "Cannot call rmtree on a symbolic link")
  else exists d',
    clean listing links (Some (Dir d)) = Ok (Some (Dir d'))
    /\ d' !! ".git" = d !! ".git"
    /\ forall n, n <> ".git" -> d' !! n = None.
Proof.
  unfold clean, scan_node. cbn [mbind result_bind entries_of].
  pose proof (clean_loop links (listing d) d (listing_NoDup d)) as Hloop.
  destruct (existsb (refused links) (listing d)).
  - rewrite Hloop; [done|]. intros k v. apply listing_elem.
  - destruct Hloop as (d' & -> & Hd'); [intros k v; apply listing_elem|].
    exists d'. split; [done|]. split.
    + rewrite Hd'. case_decide as H; [by destruct H|done].
    + intros n Hn. rewrite Hd'. case_decide as H; [done|].
      destruct (d !! n) as [v|] eqn:Hv; [|done]. exfalso. apply H.
      split; [done|]. apply list_elem_of_fmap. exists (n, v).
      split; [done|]. by apply listing_elem.
Qed.

(** C7, at the inputs where the code leaves it.  An output root in
    which [assets] is a symbolic link to a directory: [x.is_dir()]
    follows the link, [shutil.rmtree] refuses it, and the clean step
    raises in whatever order the entries come, where the entry was to be
    removed.  An output root that does not exist, a content tree
    without a page and a static directory with one file: nothing
    creates the output root, and the build raises at [shutil.copy]
    where it was to go on. *)
Theorem clean_raises_on_link_to_directory :
  clean listing {[ "assets" ]} linked_public
  = Raise (OSError "Cannot call rmtree on a symbolic link")
  /\ (forall open_text yaml_load to_html render,
        build open_text yaml_load to_html render listing
              empty_root "public" one_static None ∅ None
        = Raise (OSError "FileNotFoundError")).
Proof.
  split.
  - pose proof (clean_dir {[ "assets" ]} (entries_of linked_public)) as H.
    assert (existsb (refused {[ "assets" ]}) (listing (entries_of linked_public))
            = true) as Hex.
    { apply refused_listing. exists "assets", {[ "logo.png" := File "logo" ]}.
      split; [by vm_compute|]. split; [done|]. by apply elem_of_singleton. }
    by rewrite Hex in H.
  - intros open_text yaml_load to_html render.
    unfold build, empty_root, one_static.
    cbn [clean _build is_index build_index each for_each mbind result_bind app].
    unfold _copy_static_files, copy, scan_node. cbn [mbind result_bind].
    assert (listing {[ "logo.png" := File "site logo" ]}
            = [("logo.png", File "site logo")]) as ->.
    { apply Permutation_singleton_r. rewrite listing_perm.
      by rewrite map_to_list_singleton. }
    reflexivity.
Qed.

(** What one run of [copy] does to the entry [k] of the output root *)
Lemma copy_loop xs : forall out out',
  NoDup xs.*1 ->
  for_each (fun pub (x : string * node) =>
              match x.2 with
              | File c => shutil_copy c x.1 pub
              | Dir t => shutil_copytree t x.1 pub
              end) xs out = Ok out' ->
  forall k,
    (k ∉ xs.*1 -> entries_of out' !! k = entries_of out !! k)
    /\ (forall c, (k, File c) ∈ xs ->
          match entries_of out !! k with
          | Some (Dir sub) => entries_of out' !! k = Some (Dir (<[k := File c]> sub))
          | _ => entries_of out' !! k = Some (File c)
          end)
    /\ (forall t, (k, Dir t) ∈ xs ->
          entries_of out !! k = None /\ entries_of out' !! k = Some (Dir t)).
Proof.
  induction xs as [|[n v] xs IH]; intros out out' Hnd H k; cbn [for_each] in H.
  - injection H as <-. split; [done|].
    split; intros ? Hx; by apply not_elem_of_nil in Hx.
  - cbn [fmap list_fmap fst] in Hnd. apply NoDup_cons in Hnd as [Hn Hnd].
    apply bind_ok in H as (out1 & Hstep & H). cbn [fst snd] in Hstep.
    destruct (IH out1 out' Hnd H k) as (Hout & Hfile & Hdir).
    assert (forall w, (k, w) ∈ xs -> k <> n) as Hne.
    { intros w Hw <-. apply Hn. apply list_elem_of_fmap. by exists (k, w). }
    assert (forall j, j <> n -> entries_of out1 !! j = entries_of out !! j) as Hoth.
    { destruct v; cbv beta iota in Hstep;
        [by apply shutil_copy_spec in Hstep as [? _]
        |by apply shutil_copytree_spec in Hstep as [? _]]. }
    cbn [fmap list_fmap fst]. split; [|split].
    + intros Hk. apply not_elem_of_cons in Hk as [Hkn Hk].
      rewrite Hout by done. by apply Hoth.
    + intros c [[= -> <-]|Hc]%elem_of_cons.
      * rewrite Hout by done. cbv beta iota in Hstep.
        by apply shutil_copy_spec in Hstep as [_ ?].
      * rewrite <- (Hoth k) by eauto. by apply Hfile.
    + intros t [[= -> <-]|Ht]%elem_of_cons.
      * rewrite Hout by done. cbv beta iota in Hstep.
        by apply shutil_copytree_spec in Hstep as (_ & ? & ?).
      * rewrite <- (Hoth k) by eauto. by apply Hdir.
Qed.

Lemma copy_spec src out out' :
  copy listing (Some (Dir src)) out = Ok out' ->
  forall k,
    match src !! k with
    | None => entries_of out' !! k = entries_of out !! k
    | Some (File c) =>
        match entries_of out !! k with
        | Some (Dir sub) => entries_of out' !! k = Some (Dir (<[k := File c]> sub))
        | _ => entries_of out' !! k = Some (File c)
        end
    | Some (Dir t) =>
        entries_of out !! k = None /\ entries_of out' !! k = Some (Dir t)
    end.
Proof.
  unfold copy, scan_node. cbn [mbind result_bind]. intros H k.
  destruct (copy_loop _ _ _ (listing_NoDup src) H k) as (Hout & Hfile & Hdir).
  destruct (src !! k) as [[c|t]|] eqn:Hk.
  - by apply Hfile, listing_elem.
  - by apply Hdir, listing_elem.
  - apply Hout. intros ((k' & v) & -> & Hin)%list_elem_of_fmap.
    apply listing_elem in Hin. cbn [fst] in Hk. congruence.
Qed.

(** C5, as it holds.  When a name is a file in the site-wide static
    directory and in the static directory of the theme, and the output
    root has no directory of that name when the copy starts, the output
    root holds the file of the theme under that name once the copy is
    done: the site-wide directory is copied first, the theme second, and
    the second copy replaces the file of the first. *)
Theorem theme_static_file_wins s t out out' n c1 c2 :
  _copy_static_files listing (Some (Dir s)) (Some (Dir t)) out = Ok out' ->
  s !! n = Some (File c1) ->
  t !! n = Some (File c2) ->
  (forall sub, entries_of out !! n <> Some (Dir sub)) ->
  exists out1,
    copy listing (Some (Dir s)) out = Ok out1
    /\ entries_of out1 !! n = Some (File c1)
    /\ entries_of out' !! n = Some (File c2).
Proof.
  unfold _copy_static_files. intros (out1 & H1 & H2)%bind_ok Hs Ht Hout.
  exists out1. split; [done|].
  pose proof (copy_spec _ _ _ H1 n) as Hn1. rewrite Hs in Hn1.
  assert (entries_of out1 !! n = Some (File c1)) as Hc1.
  { destruct (entries_of out !! n) as [[|sub]|]; try done. by destruct (Hout sub). }
  split; [done|].
  pose proof (copy_spec _ _ _ H2 n) as Hn2. by rewrite Ht, Hc1 in Hn2.
Qed.

(** C9. The copy replaces files only.  When the static directory of the
    theme has a directory under a name that the output root already
    holds as a directory, or that the site-wide static directory has as
    a directory of its own, the copy raises: [shutil.copytree] refuses
    a destination that exists. *)
Theorem static_directory_clash static t out n td :
  t !! n = Some (Dir td) ->
  (exists d0, entries_of out !! n = Some (Dir d0))
  \/ (exists s sd, static = Some (Dir s) /\ s !! n = Some (Dir sd)) ->
  exists e, _copy_static_files listing static (Some (Dir t)) out = Raise e.
Proof.
  intros Ht Hcase.
  destruct (_copy_static_files listing static (Some (Dir t)) out)
    as [out'|e] eqn:H; [exfalso|by exists e].
  unfold _copy_static_files in H. apply bind_ok in H as (out1 & H1 & H2).
  pose proof (copy_spec _ _ _ H2 n) as Hn2. rewrite Ht in Hn2.
  destruct Hn2 as [Hnone _].
  destruct Hcase as [[d0 Hd0]|(s & sd & -> & Hs)].
  - destruct static as [[c|s]|].
    + done.
    + pose proof (copy_spec _ _ _ H1 n) as Hn1. rewrite Hd0 in Hn1.
      destruct (s !! n) as [[c|sd]|]; [congruence|by destruct Hn1|congruence].
    + injection H1 as <-. congruence.
  - pose proof (copy_spec _ _ _ H1 n) as Hn1. rewrite Hs in Hn1.
    destruct Hn1 as [_ Hn1]. congruence.
Qed.

End DiskFacts.

Lemma clean_raises_on_link_to_directory_witness :
  clean map_to_list {[ "assets" ]} linked_public
  = Raise (OSError "Cannot call rmtree on a symbolic link")
  /\ (forall open_text yaml_load to_html render,
        build open_text yaml_load to_html render map_to_list
              empty_root "public" one_static None ∅ None
        = Raise (OSError "FileNotFoundError")).
Proof.
  exact (clean_raises_on_link_to_directory map_to_list
           (fun d => reflexivity (map_to_list d))).
Defined.

Lemma theme_static_file_wins_witness :
  exists out1,
    copy map_to_list site_static site_rendered = Ok out1
    /\ entries_of out1 !! "logo.png" = Some (File "site logo")
    /\ entries_of site_public !! "logo.png" = Some (File "theme logo").
Proof.
  apply (theme_static_file_wins map_to_list (fun d => reflexivity (map_to_list d))
           (entries_of site_static) (entries_of theme_static)
           site_rendered site_public "logo.png" "site logo" "theme logo").
  - vm_compute. reflexivity.
  - vm_compute. reflexivity.
  - vm_compute. reflexivity.
  - intros sub. vm_compute. discriminate.
Defined.

(** C5, as stated, fails when the render has made a directory of the
    name: the example site has the page [10.about.md], rendered into the
    directory [public/about], and a file [about] in both static
    directories.  [shutil.copy] onto a directory copies into it, so both
    files go to [public/about/about], and the output root holds under
    [about] a directory, not the file of the theme. *)
Lemma static_file_lands_inside_directory :
  ~ (forall (listing : gmap string node -> list (string * node)),
        (forall d, listing d ≡ₚ map_to_list d) ->
        forall s t out out' n c1 c2,
          _copy_static_files listing (Some (Dir s)) (Some (Dir t)) out = Ok out' ->
          s !! n = Some (File c1) ->
          t !! n = Some (File c2) ->
          entries_of out' !! n = Some (File c2)).
Proof.
  intros H.
  specialize (H map_to_list (fun d => reflexivity (map_to_list d))
                (entries_of site_static) (entries_of theme_static)
                site_rendered site_public "about" "site about" "theme about").
  assert (entries_of site_public !! "about" = Some (File "theme about")) as Habs.
  { apply H; vm_compute; reflexivity. }
  vm_compute in Habs. discriminate Habs.
Qed.

Lemma static_directory_clash_witness :
  exists e, _copy_static_files map_to_list theme_static theme_static (Some (Dir ∅))
            = Raise e.
Proof.
  apply (static_directory_clash map_to_list (fun d => reflexivity (map_to_list d))
           theme_static (entries_of theme_static) (Some (Dir ∅)) "js"
           {[ "theme.js" := File "b" ]}).
  - vm_compute. reflexivity.
  - right. exists (entries_of theme_static), {[ "theme.js" := File "b" ]}.
    split; vm_compute; reflexivity.
Defined.

(** Where the two files [about] went in the example: into the directory
    of the rendered page, the file of the theme last. *)
Example site_about_inside_directory :
  lookup_path ["about"; "index.html"] site_public
  = Some (File ("page.html: " +:+ one_paragraph "Hi"))
  /\ lookup_path ["about"; "about"] site_public = Some (File "theme about")
  /\ lookup_path ["logo.png"] site_public = Some (File "theme logo")
  /\ lookup_path [".git"; "HEAD"] site_public = Some (File "ref").
Proof. by vm_compute. Qed.

(** * Further properties *)

(** ** Reading lines and front matter *)

Lemma readline_app (t : string) : (readline t).1 +:+ (readline t).2 = t.
Proof.
  induction t as [|a t IH]; [done|]. cbn [readline].
  destruct (Ascii.eqb a nl); [done|].
  destruct (readline t) as [l r]. cbn [fst snd] in *.
  by rewrite app_String, IH.
Qed.

(** [readline] cuts the text in two without losing a character: the
    line and the unread rest give the text back; the line is a complete
    line or, at the end of the file, a text without newline; and it is
    empty only when nothing is left to read. *)
Lemma readline_splits (t : string) :
  (readline t).1 +:+ (readline t).2 = t
  /\ is_line (readline t).1 || no_newline (readline t).1 = true
  /\ ((readline t).1 = "" <-> t = "").
Proof.
  split; [apply readline_app|]. split.
  - induction t as [|a t IH]; [done|]. cbn [readline].
    destruct (Ascii.eqb a nl) eqn:Ha.
    + cbn [fst is_line]. by rewrite Ha.
    + destruct (readline t) as [l r]. cbn [fst is_line no_newline] in *.
      rewrite Ha. cbn [negb andb]. done.
  - destruct t as [|a t]; [done|]. cbn [readline].
    destruct (Ascii.eqb a nl); [done|]. by destruct (readline t).
Qed.

(** The line that [readline] returns is all of the next line of the
    text: a complete line, or what is left of a file that does not end
    with a newline. *)
Lemma readline_next (t : string) :
  next_line (readline t).1 (readline t).2 = true.
Proof.
  induction t as [|a t IH]; [done|]. cbn [readline].
  destruct (Ascii.eqb a nl) eqn:Ha.
  - unfold next_line. cbn [fst is_line]. by rewrite Ha.
  - destruct (readline t) as [l r]. cbn [fst snd] in *.
    unfold next_line in *. cbn [is_line no_newline]. by rewrite Ha.
Qed.

Section ParserMore.

Variable open_text : string -> result string.
Variable yaml_load : string -> option value.
Variable to_html : string -> string.

Local Abbreviation parse_text := (parse_md_text yaml_load to_html).

(** Past the end of the file every line read is empty, and the loop
    does not return. *)
Lemma header_loop_eof fuel : forall i acc r,
  header_loop fuel i acc "" "" <> Ok r.
Proof.
  induction fuel as [|fuel IH]; intros i acc r; cbn [header_loop startswith].
  - by destruct (50 <? i).
  - destruct (50 <? i); [done|]. cbn [readline]. apply IH.
Qed.

(** What the loop has read when it returns: the lines it stored, each
    of them a complete line and none a delimiter, at most 51 with those
    stored before, then the delimiter, all of its line, then the text
    left unread. *)
Lemma header_loop_inv fuel : forall i acc line rest lines body,
  i <= 51 ->
  next_line line rest = true ->
  header_loop fuel i acc line rest = Ok (lines, body) ->
  exists hdr,
    lines = acc ++ hdr
    /\ exists c,
      line +:+ rest = join_lines hdr +:+ c +:+ body
      /\ startswith "---" c = true
      /\ next_line c body = true
      /\ forallb header_line hdr = true
      /\ i + length hdr <= 51.
Proof.
  induction fuel as [|fuel IH]; intros i acc line rest lines body Hi51 Hnext H;
    cbn [header_loop] in H; destruct (startswith "---" line) eqn:Hd.
  - injection H as <- <-. exists []. rewrite app_nil_r. split; [done|].
    exists line. repeat split; try done. cbn. lia.
  - by destruct (50 <? i).
  - injection H as <- <-. exists []. rewrite app_nil_r. split; [done|].
    exists line. repeat split; try done. cbn. lia.
  - destruct (50 <? i) eqn:Hi; [done|]. apply Nat.ltb_ge in Hi.
    assert (is_line line = true) as Hline.
    { unfold next_line in Hnext. destruct (is_line line); [done|].
      cbn [orb] in Hnext. apply andb_prop in Hnext as [_ Hrest].
      apply String.eqb_eq in Hrest as ->. cbn [readline] in H.
      by apply header_loop_eof in H. }
    pose proof (readline_app rest) as Hr.
    pose proof (readline_next rest) as Hn'.
    destruct (readline rest) as [line' rest']. cbn [fst snd] in Hr, Hn'.
    apply IH in H as (hdr & -> & c & Heq & Hc & Hcn & Hp & Hlen); [|lia|done].
    exists (line :: hdr). rewrite <- app_assoc. split; [done|].
    exists c. cbn [join_lines forallb length]. unfold header_line at 1.
    rewrite Hd, Hline. rewrite app_assoc_s, <- Heq, Hr. repeat split; try done. lia.
Qed.

(** X3. The parser returns a page only for a text made of an opening
    line that starts with three dashes, at most 51 complete lines that
    do not, and a line that does; the page is then what YAML decodes
    from exactly those lines, with, in a full parse, the HTML of
    exactly the text after the closing line stored under [content].
    The parts are lines of the text, as [readline] cuts it: the opening
    line and the lines of the block end with their newline, and the
    closing line does, unless the file ends with it. *)
Theorem parse_md_text_inv path text header_only page :
  parse_text path text header_only = Ok page ->
  exists o hdr c body v,
    text = md_text o hdr c body
    /\ is_line o = true
    /\ startswith "---" o = true
    /\ forallb header_line hdr = true
    /\ length hdr <= 51
    /\ startswith "---" c = true
    /\ next_line c body = true
    /\ yaml_load (join_lines hdr) = Some v
    /\ if header_only then page = v
       else py_setitem v "content" (VStr (to_html body)) = Ok page.
Proof.
  unfold parse_md_text. intros H. pose proof (readline_app text) as Ht.
  pose proof (readline_next text) as Hno.
  destruct (readline text) as [o rest]. cbn [fst snd] in Ht, Hno.
  destruct (startswith "---" o) eqn:Ho; [|done]. cbn [negb] in H.
  pose proof (readline_app rest) as Hr.
  pose proof (readline_next rest) as Hnl.
  destruct (readline rest) as [line rest'] eqn:Hrl. cbn [fst snd] in Hr, Hnl.
  apply bind_ok in H as ([lines body] & Hloop & H).
  assert (is_line o = true) as Hline.
  { unfold next_line in Hno. destruct (is_line o); [done|].
    cbn [orb] in Hno. apply andb_prop in Hno as [_ Hrest].
    apply String.eqb_eq in Hrest as ->. cbn [readline] in Hrl.
    injection Hrl as <- <-. by apply header_loop_eof in Hloop. }
  apply header_loop_inv in Hloop as (hdr & -> & c & Heq & Hc & Hcn & Hp & Hlen);
    [|lia|done].
  cbn [app] in H. destruct (yaml_load (join_lines hdr)) as [v|] eqn:Hy; [|done].
  exists o, hdr, c, body, v. unfold md_text. rewrite <- Heq, Hr, Ht.
  repeat split; try done.
  destruct header_only; [by injection H|done].
Qed.

(** X1. A file that does not start with three dashes, the empty file
    included, is rejected with a [SystemError] that names the file,
    before anything else of it is read. *)
Theorem parse_md_file_no_opening path text header_only :
  open_text path = Ok text ->
  startswith "---" (readline text).1 = false ->
  parse_md_file open_text yaml_load to_html path header_only
  = Raise (SystemError ("not started by `---`: " +:+ path)).
Proof.
  intros Ho H. unfold parse_md_file. rewrite Ho. cbn [mbind result_bind].
  unfold parse_md_text. destruct (readline text) as [first rest].
  cbn [fst] in H. by rewrite H.
Qed.

(** X2. The scan for the closing line is bounded: when none of the 52
    lines after the opening line starts with three dashes, the parser
    raises, whatever comes later; the lines read past the end of a
    shorter file are empty, so a front matter that is never closed is
    rejected as well. *)
Theorem parse_md_text_unclosed path text header_only :
  startswith "---" (readline text).1 = true ->
  forallb plain (first_lines 52 (readline text).2) = true ->
  parse_text path text header_only
  = Raise (SystemError "not reached to `---` after 50 lines").
Proof.
  intros Ho Hl. unfold parse_md_text.
  destruct (readline text) as [o rest]. cbn [fst snd] in *. rewrite Ho. cbn [negb].
  cbn [first_lines] in Hl. destruct (readline rest) as [line rest'].
  by rewrite (header_loop_unclosed 52 0 [] line rest') by (done || lia).
Qed.

(** X4. A front matter that does not decode to a mapping (an empty
    block, which decodes to [None], a scalar or a list) is returned as
    it is by a header-only parse, and makes a full parse raise a
    [TypeError]: the assignment of [content] needs a dict. *)
Theorem parse_md_text_not_a_mapping path o hdr c body v :
  is_line o = true -> startswith "---" o = true ->
  forallb header_line hdr = true -> length hdr <= 51 ->
  startswith "---" c = true -> next_line c body = true ->
  yaml_load (join_lines hdr) = Some v ->
  is_dict v = false ->
  parse_text path (md_text o hdr c body) true = Ok v
  /\ parse_text path (md_text o hdr c body) false = Raise TypeError.
Proof.
  intros Ho Hs Hh Hlen Hc Hn Hy Hv.
  rewrite !parse_md_text_block by done. rewrite Hy.
  split; [done|]. by destruct v.
Qed.

(** X5. The two ways of parsing agree: when the full parse of a text
    returns a page, the header-only parse of the same text returns a
    mapping, and the page is that mapping with [content] set to an HTML
    string.  So the front matter kept in [folder.index] and the page
    rendered for the same [_index.md] carry the same keys apart from
    [content]. *)
Theorem parse_full_extends_header path text page :
  parse_text path text false = Ok page ->
  exists d html,
    parse_text path text true = Ok (VDict d)
    /\ page = VDict (<["content" := VStr html]> d).
Proof.
  unfold parse_md_text. destruct (readline text) as [o rest].
  destruct (negb (startswith "---" o)); [done|].
  destruct (readline rest) as [line rest'].
  destruct (header_loop 52 0 [] line rest') as [[lines body]|e]; [|done].
  cbn [mbind result_bind].
  destruct (yaml_load (join_lines lines)) as [[| | | | |d]|]; try done.
  intros [= <-]. by exists d, (to_html body).
Qed.

End ParserMore.

Lemma parse_md_text_inv_witness :
  exists o hdr c body v,
    md_file ["title: About"] "Hi" = md_text o hdr c body
    /\ is_line o = true
    /\ startswith "---" o = true
    /\ forallb header_line hdr = true
    /\ length hdr <= 51
    /\ startswith "---" c = true
    /\ next_line c body = true
    /\ flat_yaml (join_lines hdr) = Some v
    /\ py_setitem v "content" (VStr (one_paragraph body))
       = Ok (VDict (<["content" := VStr (one_paragraph "Hi")]>
                      {[ "title" := VStr "About" ]})).
Proof.
  apply (parse_md_text_inv flat_yaml one_paragraph "about.md"
           (md_file ["title: About"] "Hi") false).
  vm_compute. reflexivity.
Defined.

Lemma parse_md_file_no_opening_witness :
  parse_md_file (fun _ => Ok "") flat_yaml one_paragraph "empty.md" false
  = Raise (SystemError ("not started by `---`: " +:+ "empty.md")).
Proof.
  apply (parse_md_file_no_opening (fun _ => Ok "") flat_yaml one_paragraph
           "empty.md" "" false); reflexivity.
Defined.

Lemma parse_md_text_unclosed_witness :
  parse_md_text flat_yaml one_paragraph "open.md"
    ("---" +:+ NL +:+ "title: About" +:+ NL) true
  = Raise (SystemError "not reached to `---` after 50 lines").
Proof.
  apply (parse_md_text_unclosed flat_yaml one_paragraph "open.md"
           ("---" +:+ NL +:+ "title: About" +:+ NL) true); reflexivity.
Defined.

Lemma parse_md_text_not_a_mapping_witness :
  parse_md_text flat_yaml one_paragraph "bare.md"
    (md_text ("---" +:+ NL) [] ("---" +:+ NL) "Hi") true = Ok VNone
  /\ parse_md_text flat_yaml one_paragraph "bare.md"
       (md_text ("---" +:+ NL) [] ("---" +:+ NL) "Hi") false = Raise TypeError.
Proof.
  apply (parse_md_text_not_a_mapping flat_yaml one_paragraph "bare.md"
           ("---" +:+ NL) [] ("---" +:+ NL) "Hi" VNone);
    [reflexivity | reflexivity | reflexivity | simpl; lia
    | reflexivity | reflexivity | reflexivity | reflexivity].
Defined.

Lemma parse_full_extends_header_witness :
  exists d html,
    parse_md_text flat_yaml one_paragraph "about.md"
      (md_file ["title: About"] "Hi") true = Ok (VDict d)
    /\ VDict (<["content" := VStr (one_paragraph "Hi")]> {[ "title" := VStr "About" ]})
       = VDict (<["content" := VStr html]> d).
Proof.
  apply (parse_full_extends_header flat_yaml one_paragraph "about.md"
           (md_file ["title: About"] "Hi")).
  vm_compute. reflexivity.
Defined.

(** ** Names and paths *)

Lemma skip_digits_all ds : digits ds = true -> skip_digits ds = "".
Proof.
  induction ds as [|a ds IH]; [done|]. cbn [digits skip_digits].
  destruct ds as [|b ds].
  - by intros ->.
  - intros [-> Hd]%andb_prop. by apply IH.
Qed.

Lemma skip_digits_split r :
  exists ds, r = ds +:+ skip_digits r /\ (ds = "" \/ digits ds = true).
Proof.
  induction r as [|a r (ds & Hr & Hds)]; [by exists ""; auto|].
  cbn [skip_digits]. destruct (is_digit a) eqn:Ha.
  - exists (String a ds). rewrite app_String, <- Hr. split; [done|]. right.
    cbn [digits]. destruct Hds as [->|Hd]; [done|]. rewrite Ha, Hd.
    by destruct ds.
  - exists "". auto.
Qed.

Lemma get_name_numbered ds rest :
  digits ds = true -> no_newline rest = true -> rest <> "" ->
  get_name (ds +:+ "." +:+ rest) = rest.
Proof.
  intros Hd Hn Hr. destruct ds as [|a ds]; [done|].
  assert (is_digit a = true) as Ha.
  { cbn [digits] in Hd. destruct ds; [done|]. by apply andb_prop in Hd as [? _]. }
  rewrite app_String. cbn [get_name]. rewrite Ha.
  assert (skip_digits (ds +:+ "." +:+ rest) = "." +:+ rest) as ->.
  { destruct ds as [|b ds]; [done|]. apply skip_digits_app.
    cbn [digits] in Hd. by apply andb_prop in Hd as [_ ?]. }
  change ("." +:+ rest) with (String "."%char rest). cbn match.
  rewrite (until_newline_id _ Hn). by destruct rest.
Qed.

(** X6. The derived name is never empty for a name that is not, and,
    for a name of ASCII characters without newline, it is the name
    itself or what follows one prefix of digits and a dot: nothing is
    taken from the end or from the middle. *)
Theorem get_name_suffix (s : string) :
  (s <> "" -> get_name s <> "")
  /\ (ascii_only s = true -> no_newline s = true ->
      exists p, s = p +:+ get_name s
                /\ (p = "" \/ exists ds, digits ds = true /\ p = ds +:+ ".")).
Proof.
  destruct s as [|a r]; [split; [done|by exists ""; auto]|].
  cbn [get_name]. destruct (is_digit a) eqn:Ha; [|split; [done|by exists ""; auto]].
  destruct (skip_digits_split r) as (ds & Hr & Hds).
  destruct (skip_digits r) as [|b t] eqn:Hs; [split; [done|by exists ""; auto]|].
  destruct (Ascii.eqb_spec b "."%char) as [->|Hb].
  - destruct (until_newline t) as [|c u] eqn:Hu; [split; [done|by exists ""; auto]|].
    split; [done|]. intros _ Hn. cbn [no_newline] in Hn.
    apply andb_prop in Hn as [_ Hn].
    assert (no_newline t = true) as Ht.
    { rewrite Hr in Hn. clear -Hn. induction ds as [|d ds IH].
      - cbn in Hn. by apply andb_prop in Hn as [_ ?].
      - rewrite app_String in Hn. cbn [no_newline] in Hn.
        apply andb_prop in Hn as [_ Hn]. by apply IH. }
    rewrite (until_newline_id _ Ht) in Hu. subst t.
    exists (String a ds +:+ "."). split.
    + rewrite !app_String. f_equal. rewrite Hr at 1. by rewrite app_assoc_s.
    + right. exists (String a ds). split; [|done].
      cbn [digits]. destruct Hds as [->|Hd]; [done|]. rewrite Ha, Hd. by destruct ds.
  - assert (match b with
            | "."%char => match until_newline t with
                          | "" => String a r
                          | String a0 s => String a0 s
                          end
            | _ => String a r
            end = String a r) as ->.
    { destruct b as [[] [] [] [] [] [] [] []]; try done. }
    split; [done|]. by exists ""; auto.
Qed.

Lemma get_name_suffix_witness :
  get_name "10.about" <> ""
  /\ exists p, "10.about" = p +:+ get_name "10.about"
               /\ (p = "" \/ exists ds, digits ds = true /\ p = ds +:+ ".").
Proof.
  split.
  - apply (proj1 (get_name_suffix "10.about")). discriminate.
  - apply (proj2 (get_name_suffix "10.about")); reflexivity.
Defined.

(** X7. A name that is only a number, or a number and a dot, is kept
    whole: the pattern wants at least one character after the dot. *)
Theorem get_name_number_only (ds : string) :
  digits ds = true ->
  get_name ds = ds /\ get_name (ds +:+ ".") = ds +:+ ".".
Proof.
  intros Hd. destruct ds as [|a r]; [done|].
  assert (is_digit a = true /\ (r = "" \/ digits r = true)) as [Ha Hr].
  { cbn [digits] in Hd. destruct r; [auto|].
    apply andb_prop in Hd as [? ?]. auto. }
  split.
  - cbn [get_name]. rewrite Ha.
    destruct Hr as [->|Hr]; [done|]. by rewrite (skip_digits_all _ Hr).
  - rewrite app_String. cbn [get_name]. rewrite Ha.
    destruct Hr as [->|Hr]; [done|].
    pose proof (skip_digits_app r "" Hr) as Hs.
    change (r +:+ "." +:+ "") with (r +:+ ".") in Hs. by rewrite Hs.
Qed.

Lemma get_name_number_only_witness :
  get_name "2024" = "2024" /\ get_name ("2024" +:+ ".") = "2024" +:+ ".".
Proof. apply (get_name_number_only "2024"). reflexivity. Defined.

Lemma substring_0_length (p : string) : String.substring 0 (String.length p) p = p.
Proof. induction p as [|a p IH]; [done|]. cbn. by rewrite IH. Qed.

Lemma substring_split (p : string) : forall n,
  n <= String.length p ->
  String.substring 0 n p +:+ String.substring n (String.length p - n) p = p.
Proof.
  induction p as [|a p IH]; intros [|n] Hn; cbn in *; try done; try lia.
  - by rewrite substring_0_length.
  - rewrite app_String, IH by lia. done.
Qed.

Lemma substring_get (s : string) : forall n m c,
  String.get n s = Some c -> 0 < m ->
  exists t, String.substring n m s = String c t.
Proof.
  induction s as [|a s IH]; intros [|n] m c Hg Hm; cbn in *; try done.
  - injection Hg as ->. destruct m; [lia|]. eauto.
  - by apply IH.
Qed.

Lemma rfind_from_range c (s : string) : forall i last,
  (last < i)%Z ->
  rfind_from c s i last = last
  \/ ((i <= rfind_from c s i last < i + Z.of_nat (String.length s))%Z
      /\ String.get (Z.to_nat (rfind_from c s i last - i)) s = Some c).
Proof.
  induction s as [|a s IH]; intros i last Hl; [by left|].
  cbn [rfind_from String.length].
  destruct (IH (i + 1)%Z (if Ascii.eqb a c then i else last)) as [Hr|[Hr Hg]].
  { destruct (Ascii.eqb a c); lia. }
  - rewrite Hr. destruct (Ascii.eqb_spec a c) as [->|_]; [|by left].
    right. split; [lia|]. by rewrite Z.sub_diag.
  - right. split; [lia|].
    replace (Z.to_nat (rfind_from c s (i + 1) (if Ascii.eqb a c then i else last) - i))
      with (S (Z.to_nat (rfind_from c s (i + 1) (if Ascii.eqb a c then i else last)
                         - (i + 1)))) by lia.
    done.
Qed.

(** [splitext] loses nothing: the root and the extension give the
    path back, and the extension is empty or starts with a dot. *)
Lemma splitext_joins (p : string) :
  (splitext p).1 +:+ (splitext p).2 = p
  /\ ((splitext p).2 = "" \/ startswith "." (splitext p).2 = true).
Proof.
  unfold splitext.
  destruct (rfind "/"%char p <? rfind "."%char p)%Z eqn:Hlt;
    [|split; [apply app_empty_r|by left]].
  destruct (all_dots _); [split; [apply app_empty_r|by left]|]. cbn [fst snd].
  apply Z.ltb_lt in Hlt. unfold rfind in *.
  destruct (rfind_from_range "/"%char p 0 (-1)) as [Hs|[Hs _]]; [lia|..];
    (destruct (rfind_from_range "."%char p 0 (-1)) as [Hd|[Hd Hg]]; [lia|lia|]).
  all: rewrite Z.sub_0_r in Hg; split; [apply substring_split; lia|right].
  all: destruct (substring_get p _ (String.length p - Z.to_nat (rfind_from "."%char p 0 (-1)))
                   _ Hg) as [t ->]; [lia|done].
Qed.

Lemma rfind_from_lacks c (s : string) : forall i last,
  lacks c s = true -> rfind_from c s i last = last.
Proof.
  induction s as [|a s IH]; intros i last H; [done|]. cbn [lacks rfind_from] in *.
  apply andb_prop in H as [Ha%negb_true_iff H]. rewrite Ha. by apply IH.
Qed.

Lemma rfind_from_app c (s t : string) : forall i last,
  rfind_from c (s +:+ t) i last
  = rfind_from c t (i + Z.of_nat (String.length s)) (rfind_from c s i last).
Proof.
  induction s as [|a s IH]; intros i last.
  - cbn. by rewrite Z.add_0_r.
  - rewrite app_String. cbn [rfind_from String.length]. rewrite IH.
    f_equal. lia.
Qed.

Lemma substring_prefix (s t : string) :
  String.substring 0 (String.length s) (s +:+ t) = s.
Proof.
  induction s as [|a s IH]; [by destruct t|].
  rewrite app_String. cbn. by rewrite IH.
Qed.

Lemma substring_suffix (s t : string) :
  String.substring (String.length s) (String.length t) (s +:+ t) = t.
Proof.
  induction s as [|a s IH]; [apply substring_0_length|].
  rewrite app_String. cbn. apply IH.
Qed.

Lemma length_app_s (s t : string) :
  String.length (s +:+ t) = String.length s + String.length t.
Proof. induction s as [|a s IH]; [done|]. rewrite app_String. cbn. by rewrite IH. Qed.

Lemma no_newline_app (s t : string) :
  no_newline (s +:+ t) = no_newline s && no_newline t.
Proof.
  induction s as [|a s IH]; [done|]. rewrite app_String. cbn [no_newline].
  by rewrite IH, andb_assoc.
Qed.

(** A file name without dot and slash before its extension [.md] is
    split there. *)
Lemma splitext_md (base : string) :
  base <> "" -> lacks "."%char base = true -> lacks "/"%char base = true ->
  splitext (base +:+ ".md") = (base, ".md").
Proof.
  intros Hne Hdot Hsep. unfold splitext, rfind.
  rewrite !rfind_from_app, (rfind_from_lacks _ _ _ _ Hdot),
    (rfind_from_lacks _ _ _ _ Hsep).
  cbn [rfind_from Ascii.eqb Bool.eqb String.length]. rewrite Z.add_0_l.
  assert ((-1 <? Z.of_nat (String.length base))%Z = true) as ->
    by (apply Z.ltb_lt; lia).
  change (Z.to_nat (-1 + 1)) with 0. rewrite Nat2Z.id, Nat.sub_0_r, substring_prefix.
  assert (all_dots base = false) as ->.
  { destruct base as [|a b]; [done|]. cbn [lacks all_dots] in *.
    apply andb_prop in Hdot as [Ha%negb_true_iff _]. by rewrite Ha. }
  f_equal. rewrite length_app_s.
  replace (String.length base + String.length ".md" - String.length base)
    with (String.length ".md") by lia.
  apply substring_suffix.
Qed.

(** X8. The name under which a content file is published.  For a file
    name made of a base without dot, slash or newline and the extension
    [.md]: a prefix of digits and a dot is dropped and the extension
    too, and without such a prefix, for a base of ASCII characters, only
    the extension is.  But a file whose base is only a number loses the
    number as if it were a prefix: [2024.md] is published as [md]. *)
Theorem derived_name (ds base : string) :
  base <> "" -> lacks "."%char base = true -> lacks "/"%char base = true ->
  no_newline base = true -> digits ds = true ->
  file_pair (regular_file (ds +:+ "." +:+ base +:+ ".md"))
  = (ds +:+ "." +:+ base +:+ ".md", base)
  /\ (ascii_only base = true -> numbered (base +:+ ".md") = false ->
      file_pair (regular_file (base +:+ ".md")) = (base +:+ ".md", base))
  /\ file_pair (regular_file (ds +:+ ".md")) = (ds +:+ ".md", "md").
Proof.
  intros Hne Hdot Hsep Hnl Hd. unfold file_pair. cbn [DirEntry.name regular_file].
  split; [|split].
  - rewrite get_name_numbered; [by rewrite splitext_md| done | |].
    + by rewrite no_newline_app, Hnl.
    + by destruct base.
  - intros _ Hnum. f_equal.
    assert (get_name (base +:+ ".md") = base +:+ ".md") as ->; [|by rewrite splitext_md].
    destruct base as [|a r]; [done|]. rewrite app_String in *.
    cbn [numbered get_name] in *. destruct (is_digit a); [|done].
    cbn [andb] in Hnum. destruct (skip_digits (r +:+ ".md")) as [|b t]; [done|].
    cbn [startswith] in Hnum. destruct (Ascii.eqb_spec "."%char b) as [<-|Hb]; [done|].
    destruct b as [[] [] [] [] [] [] [] []]; try done.
  - change (ds +:+ ".md") with (ds +:+ "." +:+ "md").
    by rewrite get_name_numbered.
Qed.

Lemma derived_name_witness :
  file_pair (regular_file ("10" +:+ "." +:+ "about" +:+ ".md"))
  = ("10" +:+ "." +:+ "about" +:+ ".md", "about")
  /\ (ascii_only "about" = true -> numbered ("about" +:+ ".md") = false ->
      file_pair (regular_file ("about" +:+ ".md")) = ("about" +:+ ".md", "about"))
  /\ file_pair (regular_file ("10" +:+ ".md")) = ("10" +:+ ".md", "md").
Proof.
  apply (derived_name "10" "about"); [discriminate | reflexivity..].
Defined.

Lemma string_rev_snoc (s : string) a :
  string_rev (s +:+ String a "") = String a (string_rev s).
Proof.
  unfold string_rev. generalize "" at 2 3.
  induction s as [|b s IH]; intros acc; [done|].
  rewrite app_String. apply IH.
Qed.

(** Joining the empty name changes nothing for what is joined
    next: [os.path.join(os.path.join(p, ''), b)] is [os.path.join(p, b)]. *)
Lemma os_path_join_empty (p b : string) :
  os_path_join (os_path_join p "") b = os_path_join p b.
Proof.
  unfold os_path_join at 2. cbn [startswith].
  destruct (String.eqb_spec p "") as [->|Hp]; [done|]. cbn [orb].
  destruct (endswith "/" p) eqn:He; [by rewrite app_empty_r|].
  change (p +:+ "/" +:+ "") with (p +:+ "/").
  unfold os_path_join. rewrite He.
  assert (String.eqb (p +:+ "/") "" = false) as -> by (by destruct p).
  assert (endswith "/" (p +:+ "/") = true) as ->.
  { unfold endswith. by rewrite string_rev_snoc. }
  destruct (String.eqb_spec p "") as [->|_]; [done|]. cbn [orb].
  by rewrite app_assoc_s.
Qed.

(** ** The scanner, further *)

Lemma for_each_invariant {A S : Type} (P : S -> Prop) (body : S -> A -> result S) xs :
  (forall st x st', P st -> body st x = Ok st' -> P st') ->
  forall st st', P st -> for_each body xs st = Ok st' -> P st'.
Proof.
  intros Hstep. induction xs as [|x xs IH]; intros st st' HP H; cbn [for_each] in H.
  - by injection H as <-.
  - apply bind_ok in H as (st1 & Hx & H). eapply IH; [|done]. by eapply Hstep.
Qed.

Lemma insert_by_sorted {A : Type} (key : A -> string) (x : A) (l : list A) :
  Sorted (fun a b => String.leb (key a) (key b) = true) l ->
  Sorted (fun a b => String.leb (key a) (key b) = true) (insert_by key x l).
Proof.
  induction 1 as [|y l Hs IH Hhd]; cbn [insert_by]; [by repeat constructor|].
  destruct (String.leb (key x) (key y)) eqn:Hxy.
  - constructor; [by constructor|]. by constructor.
  - constructor; [done|].
    assert (String.leb (key y) (key x) = true) as Hyx.
    { destruct (String.leb_total (key x) (key y)); [congruence|done]. }
    destruct l as [|z l]; cbn [insert_by]; [by constructor|].
    destruct (String.leb (key x) (key z)); constructor; [done|].
    by inversion Hhd.
Qed.

Lemma sort_by_sorted {A : Type} (key : A -> string) (l : list A) :
  Sorted (fun a b => String.leb (key a) (key b) = true) (sort_by key l).
Proof.
  induction l as [|x l IH]; [constructor|]. by apply insert_by_sorted.
Qed.

Section ScanMore.

Variable open_text : string -> result string.
Variable yaml_load : string -> option value.
Variable to_html : string -> string.
Variable scandir : string -> result (list DirEntry.t).

Local Abbreviation parse := (parse_md_file open_text yaml_load to_html).
Local Abbreviation scan := (scan_entry open_text yaml_load to_html).
Local Abbreviation Folder_ := (Folder_init open_text yaml_load to_html scandir).

(** X10. The scanner returns the content files in the order of their
    raw file names and the subfolders in the order of their paths,
    compared as strings, character by character: each one is at most
    the next. *)
Theorem scan_sorted depth dir nm folder :
  Folder_ (S depth) dir nm = Ok folder ->
  Sorted (fun a b => String.leb a.1 b.1 = true) (files folder)
  /\ Sorted (fun a b => String.leb (path a) (path b) = true) (folders folder).
Proof.
  cbn [Folder_init]. intros (entries & _ & H)%bind_ok.
  apply bind_ok in H as ([sp sn b ix subs fls] & _ & H). injection H as <-.
  cbn [files folders]. split; apply sort_by_sorted.
Qed.

(** X11. What a scanned folder carries: the path and the name it was
    built with; without [_index.md] the flag is off and the index is
    the empty mapping; with it, the index is the header-only parse of
    the file [_index.md] of its path, the file that the render parses
    again for the index page. *)
Theorem scan_fields depth dir nm folder :
  Folder_ (S depth) dir nm = Ok folder ->
  path folder = dir /\ name folder = nm
  /\ (is_index folder = false -> index folder = VDict ∅)
  /\ (is_index folder = true ->
      parse (os_path_join dir "_index.md") true = Ok (index folder)).
Proof.
  cbn [Folder_init]. intros (entries & _ & H)%bind_ok.
  apply bind_ok in H as (self & Hloop & H).
  assert (path self = dir /\ name self = nm
          /\ (is_index self = false -> index self = VDict ∅)
          /\ (is_index self = true ->
              parse (os_path_join dir "_index.md") true = Ok (index self))) as Hinv.
  { refine (for_each_invariant
              (fun s => path s = dir /\ name s = nm
                        /\ (is_index s = false -> index s = VDict ∅)
                        /\ (is_index s = true ->
                            parse (os_path_join dir "_index.md") true = Ok (index s)))
              _ _ _ _ _ _ Hloop); [|by repeat split].
    intros [sp sn b ix subs fls] x st' (Hp & Hn & Hno & Hyes) Hx.
    cbn [path name is_index index] in *. unfold scan_entry in Hx.
    destruct (DirEntry.is_file x && endswith ".md" (DirEntry.name x)).
    - destruct (String.eqb_spec (DirEntry.name x) "_index.md") as [Hname|_].
      + apply bind_ok in Hx as (page & Hpage & Hx). injection Hx as <-.
        cbn [path name is_index index]. repeat split; try done.
        intros _. unfold DirEntry.path in Hpage. by rewrite Hname, Hp in Hpage.
      + by injection Hx as <-.
    - destruct (DirEntry.is_dir x && negb (startswith "." (DirEntry.name x))).
      + apply bind_ok in Hx as (f & _ & Hx). by injection Hx as <-.
      + by injection Hx as <-. }
  destruct self as [sp sn b ix subs fls]. by injection H as <-.
Qed.

(** X12. The scan fails as a whole when one part of it does: when the
    entries of the directory cannot be listed, when its [_index.md]
    does not parse, or when the scan of one of its subfolders fails. *)
Theorem scan_fails_fast depth dir nm :
  (forall e, scandir dir = Raise e -> Folder_ (S depth) dir nm = Raise e)
  /\ (forall entries x e,
        scandir dir = Ok entries -> x ∈ entries ->
        (is_index_entry x = true /\ parse (DirEntry.path dir x) true = Raise e)
        \/ (is_folder_entry x = true
            /\ Folder_ depth (DirEntry.path dir x) (get_name (DirEntry.name x))
               = Raise e) ->
        exists e', Folder_ (S depth) dir nm = Raise e').
Proof.
  split; [intros e He; cbn [Folder_init]; by rewrite He|].
  intros entries x e Hs Hx Hfail.
  destruct (Folder_ (S depth) dir nm) as [folder|e'] eqn:H; [exfalso|by exists e'].
  cbn [Folder_init] in H. rewrite Hs in H. cbn [mbind result_bind] in H.
  apply bind_ok in H as (self & Hloop & _).
  assert (forall xs st st',
             path st = dir ->
             for_each (scan (Folder_ depth)) xs st = Ok st' ->
             forall y, y ∈ xs ->
               (is_index_entry y = true ->
                exists page, parse (DirEntry.path dir y) true = Ok page)
               /\ (is_folder_entry y = true ->
                   exists f, Folder_ depth (DirEntry.path dir y)
                                     (get_name (DirEntry.name y)) = Ok f)) as Hall.
  { clear. induction xs as [|z xs IH]; intros st st' Hp Hl y Hy.
    { by apply not_elem_of_nil in Hy. }
    cbn [for_each] in Hl. apply bind_ok in Hl as (st1 & Hz & Hl).
    assert (path st1 = dir) as Hp1.
    { destruct st as [sp sn b ix subs fls]. cbn [path] in Hp. subst sp.
      unfold scan_entry in Hz.
      destruct (DirEntry.is_file z && endswith ".md" (DirEntry.name z)).
      - destruct (String.eqb (DirEntry.name z) "_index.md").
        + apply bind_ok in Hz as (? & _ & Hz). by injection Hz as <-.
        + by injection Hz as <-.
      - destruct (DirEntry.is_dir z && negb (startswith "." (DirEntry.name z))).
        + apply bind_ok in Hz as (? & _ & Hz). by injection Hz as <-.
        + by injection Hz as <-. }
    apply elem_of_cons in Hy as [->|Hy]; [|by eapply IH].
    destruct st as [sp sn b ix subs fls]. cbn [path] in Hp. subst sp.
    unfold scan_entry in Hz. unfold is_index_entry, is_folder_entry.
    destruct (DirEntry.is_file z && endswith ".md" (DirEntry.name z)).
    - split; [|done]. cbn [andb]. intros Hname. rewrite Hname in Hz.
      apply bind_ok in Hz as (page & Hpage & _). by exists page.
    - split; [done|]. cbn [negb andb]. intros Hd. rewrite Hd in Hz.
      apply bind_ok in Hz as (f & Hf & _). by exists f. }
  destruct (Hall entries (mkFolder dir nm false (VDict ∅) [] []) self
              eq_refl Hloop x Hx) as [Hidx Hsub].
  destruct Hfail as [[Hi He]|[Hf He]].
  - destruct (Hidx Hi) as [page Hpage]. congruence.
  - destruct (Hsub Hf) as [f Hf']. congruence.
Qed.

End ScanMore.

(** ** The render, further *)

Lemma Folder_tree_ind (P : Folder -> Prop) :
  (forall p n b ix subs fls, Forall P subs -> P (mkFolder p n b ix subs fls)) ->
  forall f, P f.
Proof.
  intros H. fix IH 1. intros [p n b ix subs fls]. apply H.
  induction subs as [|f subs IHs]; constructor; [apply IH|apply IHs].
Qed.

Lemma for_each_concat {A : Type} (body : A -> result (list effect)) xs :
  forall acc log,
  for_each (fun log x => w ← body x; Ok (log ++ w)) xs acc = Ok log ->
  exists ws, Forall2 (fun x w => body x = Ok w) xs ws /\ log = acc ++ concat ws.
Proof.
  induction xs as [|x xs IH]; intros acc log H; cbn [for_each] in H.
  - injection H as <-. exists []. split; [constructor|by rewrite app_nil_r].
  - apply bind_ok in H as (acc' & Hx & H). apply bind_ok in Hx as (w & Hw & Hx).
    injection Hx as <-. apply IH in H as (ws & Hws & ->).
    exists (w :: ws). split; [by constructor|]. cbn [concat]. by rewrite app_assoc.
Qed.

Section BuildMore.

Variable open_text : string -> result string.
Variable yaml_load : string -> option value.
Variable to_html : string -> string.
Variable render : value -> Folder -> Folder -> value -> result string.

Local Abbreviation build_index_ := (build_index open_text yaml_load to_html render).
Local Abbreviation build_file_ := (build_file open_text yaml_load to_html render).
Local Abbreviation build_ := (_build open_text yaml_load to_html render).
Local Abbreviation render_page_ := (render_page open_text yaml_load to_html render).

(** X9. The index page of a folder with the empty name, as the root of
    the content tree has, is written to [index.html] in the output
    directory itself. *)
Theorem root_index_path root folder out_dir log :
  name folder = "" -> is_index folder = true ->
  build_ root folder out_dir = Ok log ->
  exists c, Write (os_path_join out_dir "index.html") c ∈ log.
Proof.
  intros Hn Hi H.
  destruct (build_paths _ _ _ _ root folder out_dir folder out_dir log
              (located_here folder out_dir) H) as [Hidx _].
  destruct (Hidx Hi) as [c Hc]. exists c.
  by rewrite Hn, os_path_join_empty in Hc.
Qed.

(** What the render of a page leaves in the log: the directory of the
    page, then its file with what the template engine returned for
    it. *)
Lemma build_index_render root folder out_dir effs :
  is_index folder = true ->
  build_index_ root folder out_dir = Ok effs ->
  exists c, render_page_ root (IndexOf folder) = Ok c
            /\ effs = page_effects (os_path_join out_dir (name folder), c).
Proof.
  intros Hi H. unfold build_index in H. rewrite Hi in H. unfold render_page.
  apply bind_ok in H as (page & Hp & H). apply bind_ok in H as (t & Ht & H).
  apply bind_ok in H as (w & Hw & H). unfold _write in Hw.
  apply bind_ok in Hw as (c & Hc & Hw). injection Hw as <-. injection H as <-.
  rewrite Hp. cbn [mbind result_bind]. rewrite Ht. cbn [mbind result_bind].
  by exists c.
Qed.

Lemma build_file_render root folder out_dir f effs :
  build_file_ root folder out_dir f = Ok effs ->
  exists c, render_page_ root (FileOf folder f) = Ok c
            /\ effs = page_effects (os_path_join out_dir f.2, c).
Proof.
  intros H. unfold build_file in H. unfold render_page.
  apply bind_ok in H as (page & Hp & H). apply bind_ok in H as (t & Ht & H).
  apply bind_ok in H as (w & Hw & H). unfold _write in Hw.
  apply bind_ok in Hw as (c & Hc & Hw). injection Hw as <-. injection H as <-.
  rewrite Hp. cbn [mbind result_bind]. rewrite Ht. cbn [mbind result_bind].
  by exists c.
Qed.

(** X13. A build that ends without exception has rendered every page
    once, in the order of the tree: its log is, page by page of
    [page_list], the directory of that page and then the file
    [index.html] in it with what the template engine returned for that
    page, and nothing else; so one pair per index page and per content
    file of the tree. *)
Theorem build_log_pages root folder : forall out_dir log,
  build_ root folder out_dir = Ok log ->
  exists ps,
    Forall2 (fun rd dc => dc.1 = rd.2 /\ render_page_ root rd.1 = Ok dc.2)
            (page_list folder out_dir) ps
    /\ log = flat_map page_effects ps
    /\ length ps = pages folder.
Proof.
  induction folder as [p n b ix subs fls IH] using Folder_tree_ind.
  intros out_dir log H. rewrite build_unfold in H.
  apply bind_ok in H as (e1 & H1 & H). apply bind_ok in H as (e2 & H2 & H).
  apply bind_ok in H as (e3 & H3 & H). injection H as <-.
  cbn [files folders] in H2, H3. cbn [page_list].
  assert (exists ps1,
             Forall2 (fun rd dc => dc.1 = rd.2 /\ render_page_ root rd.1 = Ok dc.2)
                     (if b then [(IndexOf (mkFolder p n b ix subs fls),
                                  os_path_join out_dir n)] else []) ps1
             /\ e1 = flat_map page_effects ps1
             /\ length ps1 = if b then 1 else 0) as (ps1 & Hr1 & -> & Hl1).
  { destruct b eqn:Hb.
    - destruct (build_index_render root (mkFolder p n true ix subs fls)
                  out_dir e1 eq_refl H1) as (c & Hc & ->).
      exists [(os_path_join out_dir n, c)]. split; [|done].
      constructor; [done|constructor].
    - unfold build_index in H1. cbn [is_index] in H1. injection H1 as <-.
      exists []. split; [constructor|done]. }
  assert (exists ps2,
             Forall2 (fun rd dc => dc.1 = rd.2 /\ render_page_ root rd.1 = Ok dc.2)
                     (List.map (fun f => (FileOf (mkFolder p n b ix subs fls) f,
                                          os_path_join out_dir f.2)) fls) ps2
             /\ e2 = flat_map page_effects ps2
             /\ length ps2 = length fls) as (ps2 & Hr2 & -> & Hl2).
  { apply for_each_concat in H2 as (ws & Hws & ->). cbn [app].
    clear -Hws. generalize dependent (mkFolder p n b ix subs fls). intros F Hws.
    induction Hws as [|x w fls' ws Hw _ (ps & Hr & Hps & Hl)].
    { exists []. split; [constructor|done]. }
    destruct (build_file_render _ _ _ _ _ Hw) as (c & Hc & ->).
    exists ((os_path_join out_dir x.2, c) :: ps).
    cbn [concat flat_map length List.map]. rewrite Hps, Hl.
    split; [|done]. by constructor. }
  assert (exists ps3,
             Forall2 (fun rd dc => dc.1 = rd.2 /\ render_page_ root rd.1 = Ok dc.2)
                     (flat_map (fun f => page_list f (os_path_join out_dir (name f)))
                               subs) ps3
             /\ e3 = flat_map page_effects ps3
             /\ length ps3 = list_sum (List.map pages subs))
    as (ps3 & Hr3 & -> & Hl3).
  { apply for_each_concat in H3 as (ws & Hws & ->). cbn [app]. clear -Hws IH.
    induction Hws as [|f w subs' ws Hw _ IHws].
    { exists []. split; [constructor|done]. }
    apply Forall_cons in IH as [Hf IH].
    destruct (Hf _ _ Hw) as (psf & Hrf & -> & Hlf).
    destruct (IHws IH) as (ps & Hr & Hps & Hl).
    exists (psf ++ ps). cbn [concat List.map list_sum flat_map].
    rewrite Hps, flat_map_app, length_app, Hlf, Hl.
    split; [|done]. by apply Forall2_app. }
  exists (ps1 ++ ps2 ++ ps3). rewrite !flat_map_app, !length_app, Hl1, Hl2, Hl3.
  split; [by repeat apply Forall2_app|]. split; [done|]. cbn [pages]. lia.
Qed.

Lemma build_ok_located root folder out_dir f out_f log :
  located folder out_dir f out_f ->
  build_ root folder out_dir = Ok log ->
  (exists w, build_index_ root f out_f = Ok w)
  /\ forall x, x ∈ files f -> exists w, build_file_ root f out_f x = Ok w.
Proof.
  intros Hloc. revert log.
  induction Hloc as [folder out_dir|folder out_dir child f out_f Hc _ IH];
    intros log H; rewrite build_unfold in H;
    apply bind_ok in H as (e1 & H1 & H); apply bind_ok in H as (e2 & H2 & H);
    apply bind_ok in H as (e3 & H3 & H).
  - split; [by exists e1|]. intros x Hx.
    destruct (each_log _ _ _ _ H2 Hx) as (w & Hw & _). by exists w.
  - destruct (each_log _ _ _ _ H3 Hc) as (w & Hw & _). by eapply IH.
Qed.

(** X14. The build fails as a whole when the render of one page does:
    when, for some folder of the tree, the index page or a content file
    raises (its file does not parse, the template is missing or the
    template raises), [_build] raises at the root. *)
Theorem build_fails_fast root folder out_dir f out_f e :
  located folder out_dir f out_f ->
  build_index_ root f out_f = Raise e
  \/ (exists x, x ∈ files f /\ build_file_ root f out_f x = Raise e) ->
  exists e', build_ root folder out_dir = Raise e'.
Proof.
  intros Hloc Hfail.
  destruct (build_ root folder out_dir) as [log|e'] eqn:H; [exfalso|by exists e'].
  destruct (build_ok_located _ _ _ _ _ _ Hloc H) as [[w Hw] Hfiles].
  destruct Hfail as [He|(x & Hx & He)]; [congruence|].
  destruct (Hfiles x Hx) as [w' Hw']. congruence.
Qed.

End BuildMore.

Lemma scan_sorted_witness :
  Sorted (fun a b => String.leb a.1 b.1 = true) (files site_folder)
  /\ Sorted (fun a b => String.leb (path a) (path b) = true) (folders site_folder).
Proof.
  apply (scan_sorted site_open flat_yaml one_paragraph site_scandir 7 "content" "").
  vm_compute. reflexivity.
Defined.

Lemma scan_fields_witness :
  path site_blog = "content/20.blog" /\ name site_blog = "blog"
  /\ (is_index site_blog = false -> index site_blog = VDict ∅)
  /\ (is_index site_blog = true ->
      parse_md_file site_open flat_yaml one_paragraph
        (os_path_join "content/20.blog" "_index.md") true = Ok (index site_blog)).
Proof.
  apply (scan_fields site_open flat_yaml one_paragraph site_scandir 6).
  vm_compute. reflexivity.
Defined.

Lemma scan_fails_fast_witness :
  exists e', Folder_init broken_index_open flat_yaml one_paragraph site_scandir 8
               "content" "" = Raise e'.
Proof.
  apply (proj2 (scan_fails_fast broken_index_open flat_yaml one_paragraph
                  site_scandir 7 "content" "")
           site_entries (directory "20.blog")
           (SystemError ("not started by `---`: " +:+ "content/20.blog/_index.md"))).
  - reflexivity.
  - apply list_elem_of_further, list_elem_of_here.
  - right. split; vm_compute; reflexivity.
Defined.

Lemma site_blog_located : located site_folder "public" site_blog "public/blog".
Proof.
  apply (located_below site_folder "public" site_blog site_blog "public/blog").
  - vm_compute. apply list_elem_of_here.
  - exact (located_here site_blog "public/blog").
Qed.

Lemma root_index_path_witness :
  exists c, Write (os_path_join "public" "index.html") c ∈ site_log.
Proof.
  apply (root_index_path site_open flat_yaml one_paragraph site_render
           site_folder site_folder "public" site_log);
    [reflexivity | reflexivity | vm_compute; reflexivity].
Defined.

Lemma build_log_pages_witness :
  exists ps,
    Forall2 (fun rd dc =>
               dc.1 = rd.2
               /\ render_page site_open flat_yaml one_paragraph site_render
                              site_folder rd.1 = Ok dc.2)
            (page_list site_folder "public") ps
    /\ site_log = flat_map page_effects ps
    /\ length ps = pages site_folder.
Proof.
  apply (build_log_pages site_open flat_yaml one_paragraph site_render
           site_folder site_folder "public" site_log).
  vm_compute. reflexivity.
Defined.

Lemma build_fails_fast_witness :
  exists e', _build broken_open flat_yaml one_paragraph site_render
               site_folder site_folder "public" = Raise e'.
Proof.
  apply (build_fails_fast broken_open flat_yaml one_paragraph site_render
           site_folder site_folder "public" site_blog "public/blog"
           (SystemError ("not started by `---`: " +:+ "content/20.blog/second.md"))
           site_blog_located).
  right. exists ("second.md", "second"). split.
  - vm_compute. apply list_elem_of_further, list_elem_of_here.
  - vm_compute. reflexivity.
Defined.

(** ** The output tree, further *)

Lemma makedirs_dir cs : forall t t',
  makedirs cs t = Ok t' -> exists d, lookup_path cs (Some t') = Some (Dir d).
Proof.
  induction cs as [|c cs IH]; intros t t' H.
  - cbn [makedirs] in H. destruct t as [[|d]|]; try done; injection H as <-; cbn; eauto.
  - assert (exists sub, makedirs cs (entries_of t !! c) = Ok sub
                        /\ t' = Dir (<[c := sub]> (entries_of t))) as (sub & Hs & ->).
    { destruct t as [[|d]|]; try done; cbn [makedirs] in H;
        apply bind_ok in H as (sub & Hs & H); injection H as <-; eauto. }
    cbn [lookup_path]. rewrite lookup_insert_eq. by eapply IH.
Qed.

(** X21. [App.mkdir] leaves a path that exists as it is, and otherwise
    makes it a directory, with the directories on the way to it: when
    it returns, the path exists, and it is a directory unless it was
    there before. *)
Theorem mkdir_exists cs t t' :
  mkdir cs t = Ok t' ->
  (lookup_path cs t <> None -> t' = t)
  /\ exists n, lookup_path cs t' = Some n
               /\ (lookup_path cs t = None -> node_is_dir n = true).
Proof.
  unfold mkdir. destruct (lookup_path cs t) as [n|] eqn:Hl.
  - intros [= <-]. split; [done|]. by exists n.
  - intros (t1 & Hm & [= <-])%bind_ok. split; [done|].
    destruct (makedirs_dir _ _ _ Hm) as [d Hd]. by exists (Dir d).
Qed.

(** What [_write] writes can be read back: after the file is
    written, its path holds a regular file with the content written. *)
Lemma write_at_lookup cs : forall content t t',
  write_at cs content t = Ok t' ->
  lookup_path cs (Some t') = Some (File content).
Proof.
  induction cs as [|c cs IH]; intros content t t' H; cbn [write_at] in H.
  - destruct t as [[|d]|]; try done; by injection H as <-.
  - destruct t as [[|d]|]; try done.
    apply bind_ok in H as (sub & Hs & H). injection H as <-.
    cbn [lookup_path]. rewrite lookup_insert_eq. by eapply IH.
Qed.

Section DiskOrder.

Variables listing listing' : gmap string node -> list (string * node).
Hypothesis listing_perm : forall d, listing d ≡ₚ map_to_list d.
Hypothesis listing_perm' : forall d, listing' d ≡ₚ map_to_list d.

(** X15. The clean step does not depend on the order in which the
    system lists the entries, and cleaning what it returns changes
    nothing more, whichever entries are symbolic links by then. *)
Theorem clean_settles links out out1 :
  clean listing links out = Ok out1 ->
  clean listing' links out = Ok out1
  /\ forall links', clean listing' links' out1 = Ok out1.
Proof.
  destruct out as [[c|d]|]; [done| |by intros [= <-]].
  pose proof (clean_dir listing listing_perm links d) as H1.
  pose proof (clean_dir listing' listing_perm' links d) as H2.
  destruct (existsb (refused links) (listing d)) eqn:Hex; [by rewrite H1|].
  destruct (existsb (refused links) (listing' d)) eqn:Hex'.
  { apply (refused_listing listing' listing_perm') in Hex'.
    apply (refused_listing listing listing_perm) in Hex'. congruence. }
  destruct H1 as (d1 & -> & Hgit1 & H1). destruct H2 as (d2 & -> & Hgit2 & H2).
  intros [= <-].
  assert (forall a b : gmap string node,
             a !! ".git" = b !! ".git" ->
             (forall n, n <> ".git" -> a !! n = None) ->
             (forall n, n <> ".git" -> b !! n = None) -> a = b) as Heq.
  { intros a b Hg Ha Hb. apply map_eq. intros k.
    destruct (decide (k = ".git")) as [->|Hk]; [done|]. by rewrite Ha, Hb. }
  assert (d2 = d1) as -> by (apply Heq; congruence || done).
  split; [done|]. intros links'.
  pose proof (clean_dir listing' listing_perm' links' d1) as H3.
  destruct (existsb (refused links') (listing' d1)) eqn:Hex3.
  { apply (refused_listing listing' listing_perm') in Hex3
      as (k & sub & Hk & Hgit & _). by rewrite H1 in Hk. }
  destruct H3 as (d3 & -> & Hgit3 & H3).
  do 3 f_equal. by apply Heq.
Qed.

(** X18. What the static copy leaves in the output root does not
    depend on the order in which the system lists the two static
    directories. *)
Theorem static_copy_order_free static theme_static out out1 out2 :
  _copy_static_files listing static theme_static out = Ok out1 ->
  _copy_static_files listing' static theme_static out = Ok out2 ->
  entries_of out1 = entries_of out2.
Proof.
  assert (forall src o o1 o2,
             (if src is Some _ then copy listing src o else Ok o) = Ok o1 ->
             forall o', entries_of o' = entries_of o ->
             (if src is Some _ then copy listing' src o' else Ok o') = Ok o2 ->
             entries_of o1 = entries_of o2) as Hcopy.
  { intros [[c|src]|] o o1 o2 H1 o' Ho H2; [done| |congruence].
    apply map_eq. intros k.
    pose proof (copy_spec listing listing_perm _ _ _ H1 k) as Hk1.
    pose proof (copy_spec listing' listing_perm' _ _ _ H2 k) as Hk2.
    rewrite Ho in Hk2.
    destruct (src !! k) as [[c|t]|]; [|destruct Hk1, Hk2; congruence|congruence].
    destruct (entries_of o !! k) as [[|sub]|]; congruence. }
  unfold _copy_static_files.
  intros (o1 & Hs1 & Ht1)%bind_ok (o2 & Hs2 & Ht2)%bind_ok.
  eapply Hcopy; [exact Ht1| |exact Ht2]. symmetry. by eapply Hcopy.
Qed.

End DiskOrder.

Section CopyMore.

Variable listing : gmap string node -> list (string * node).
Hypothesis listing_perm : forall d, listing d ≡ₚ map_to_list d.

(** One run of [copy], for a source that may be absent, in which case
    the run is skipped *)
Lemma copy_opt_spec src out out' :
  (if src is Some _ then copy listing src out else Ok out) = Ok out' ->
  forall k,
    match entries_of src !! k with
    | None => entries_of out' !! k = entries_of out !! k
    | Some (File c) =>
        match entries_of out !! k with
        | Some (Dir sub) => entries_of out' !! k = Some (Dir (<[k := File c]> sub))
        | _ => entries_of out' !! k = Some (File c)
        end
    | Some (Dir t) =>
        entries_of out !! k = None /\ entries_of out' !! k = Some (Dir t)
    end.
Proof.
  destruct src as [[c|src]|]; [done| |by intros [= <-] k].
  intros H k. apply (copy_spec listing listing_perm _ _ _ H).
Qed.

(** X16. The static copy touches only the names it copies: an entry of
    the output root whose name is in neither static directory is left
    as it is, and a file that only the site-wide directory has is in
    the output root afterwards (when the name was not a directory
    there). *)
Theorem static_copy_frame static theme_static out out' k :
  _copy_static_files listing static theme_static out = Ok out' ->
  entries_of theme_static !! k = None ->
  (entries_of static !! k = None -> entries_of out' !! k = entries_of out !! k)
  /\ (forall c, entries_of static !! k = Some (File c) ->
        (forall sub, entries_of out !! k <> Some (Dir sub)) ->
        entries_of out' !! k = Some (File c)).
Proof.
  unfold _copy_static_files. intros (out1 & H1 & H2)%bind_ok Ht.
  pose proof (copy_opt_spec _ _ _ H1 k) as Hk1.
  pose proof (copy_opt_spec _ _ _ H2 k) as Hk2. rewrite Ht in Hk2.
  split.
  - intros Hs. rewrite Hs in Hk1. congruence.
  - intros c Hs Hout. rewrite Hs in Hk1. rewrite Hk2.
    destruct (entries_of out !! k) as [[|sub]|]; try done. by destruct (Hout sub).
Qed.

(** X17. A name that is a file in one static directory and a directory
    in the other: with the file in the site-wide directory the copy
    raises, since [copytree] finds the name taken; with the directory
    in the site-wide one the copy goes through and the file of the
    theme lands inside the copied directory, under its own name. *)
Theorem static_kind_clash s t out n c :
  (forall td,
      s !! n = Some (File c) -> t !! n = Some (Dir td) ->
      exists e, _copy_static_files listing (Some (Dir s)) (Some (Dir t)) out
                = Raise e)
  /\ (forall sd out',
      s !! n = Some (Dir sd) -> t !! n = Some (File c) ->
      _copy_static_files listing (Some (Dir s)) (Some (Dir t)) out = Ok out' ->
      entries_of out' !! n = Some (Dir (<[n := File c]> sd))).
Proof.
  split.
  - intros td Hs Ht.
    destruct (_copy_static_files listing (Some (Dir s)) (Some (Dir t)) out)
      as [out'|e] eqn:H; [exfalso|by exists e].
    unfold _copy_static_files in H. apply bind_ok in H as (out1 & H1 & H2).
    pose proof (copy_spec listing listing_perm _ _ _ H1 n) as Hk1.
    pose proof (copy_spec listing listing_perm _ _ _ H2 n) as Hk2.
    rewrite Hs in Hk1. rewrite Ht in Hk2. destruct Hk2 as [Hnone _].
    destruct (entries_of out !! n) as [[|sub]|]; congruence.
  - intros sd out' Hs Ht H.
    unfold _copy_static_files in H. apply bind_ok in H as (out1 & H1 & H2).
    pose proof (copy_spec listing listing_perm _ _ _ H1 n) as Hk1.
    pose proof (copy_spec listing listing_perm _ _ _ H2 n) as Hk2.
    rewrite Hs in Hk1. rewrite Ht in Hk2. destruct Hk1 as [_ Hk1].
    by rewrite Hk1 in Hk2.
Qed.

End CopyMore.

(** ** The data files *)

Section DataFacts.

Variable open_text : string -> result string.
Variable scandir : string -> result (list DirEntry.t).
Variable json_load : string -> result value.

Local Abbreviation data_entry_ := (data_entry open_text json_load).

Lemma json_named_spec k x :
  json_named k x = true
  <-> DirEntry.is_file x = true /\ splitext (DirEntry.name x) = (k, ".json").
Proof.
  unfold json_named. destruct (splitext (DirEntry.name x)) as [a b]. cbn [fst snd].
  rewrite !andb_true_iff, !String.eqb_eq. split.
  - by intros [[? ->] ->].
  - by intros [? [= -> ->]].
Qed.

Lemma json_named_name k x y :
  json_named k x = true -> json_named k y = true ->
  DirEntry.name x = DirEntry.name y.
Proof.
  intros [_ Hx]%json_named_spec [_ Hy]%json_named_spec.
  rewrite <- (proj1 (splitext_joins (DirEntry.name x))),
          <- (proj1 (splitext_joins (DirEntry.name y))).
  by rewrite Hx, Hy.
Qed.

Lemma data_loop dir xs : forall data0 data,
  for_each (data_entry_ dir) xs data0 = Ok data ->
  forall k v,
    data !! k = Some v
    <-> (exists x text,
            x ∈ xs /\ json_named k x = true
            /\ open_text (DirEntry.path dir x) = Ok text /\ json_load text = Ok v)
        \/ (data0 !! k = Some v /\ existsb (json_named k) xs = false).
Proof.
  induction xs as [|x xs IH]; intros data0 data H k v; cbn [for_each] in H.
  - injection H as <-. split; [by right|].
    intros [(x & text & Hx & _)|[? _]]; [by apply not_elem_of_nil in Hx|done].
  - apply bind_ok in H as (data1 & Hx & H). rewrite (IH _ _ H k v). clear IH H.
    cbn [existsb]. unfold data_entry in Hx.
    destruct (DirEntry.is_file x && String.eqb (splitext (DirEntry.name x)).2 ".json")
      eqn:Hjson.
    + apply bind_ok in Hx as (text & Ht & Hx). apply bind_ok in Hx as (vx & Hv & Hx).
      injection Hx as <-.
      assert (json_named (splitext (DirEntry.name x)).1 x = true) as Hkx.
      { unfold json_named. by rewrite Hjson, String.eqb_refl. }
      destruct (String.eqb_spec (splitext (DirEntry.name x)).1 k) as [Hk|Hk].
      * rewrite Hk in Hkx. rewrite Hkx, Hk, lookup_insert_eq. cbn [orb]. split.
        -- intros [(y & ty & Hy & Hc)|[[= <-] _]].
           ++ left. exists y, ty. split; [by right|done].
           ++ left. exists x, text. split; [left|done].
        -- intros [(y & ty & [->|Hy]%elem_of_cons & Hn & Hty & Hvy)|[_ ?]]; [| |done].
           ++ assert (v = vx) as -> by congruence.
              destruct (existsb (json_named k) xs) eqn:He; [|by right].
              apply existsb_exists in He as (z & Hz%list_elem_of_In & Hnz).
              left. exists z, text. split; [done|]. split; [done|].
              unfold DirEntry.path. by rewrite (json_named_name k z x).
           ++ left. by exists y, ty.
      * assert (json_named k x = false) as Hnk.
        { unfold json_named. rewrite Hjson. cbn [andb]. by apply String.eqb_neq. }
        rewrite Hnk, lookup_insert_ne by done. cbn [orb]. split.
        -- intros [(y & ty & Hy & Hc)|?]; [|by right].
           left. exists y, ty. split; [by right|done].
        -- intros [(y & ty & [->|Hy]%elem_of_cons & Hn & Hc)|?]; [congruence| |by right].
           left. by exists y, ty.
    + injection Hx as <-.
      assert (json_named k x = false) as Hnk.
      { unfold json_named. by rewrite Hjson. }
      rewrite Hnk. cbn [orb]. split.
      * intros [(y & ty & Hy & Hc)|?]; [|by right].
        left. exists y, ty. split; [by right|done].
      * intros [(y & ty & [->|Hy]%elem_of_cons & Hn & Hc)|?]; [congruence| |by right].
        left. by exists y, ty.
Qed.

(** X22. The data mapping has exactly one key per regular file of the
    data directory whose extension is [.json], the name without that
    extension, and under it the JSON value of that file.  A directory,
    a file with another extension, and the file named [.json], whose
    extension is empty, give no key. *)
Theorem data_files_lookup dir entries data :
  scandir dir = Ok entries ->
  _data_files open_text scandir json_load dir = Ok data ->
  forall k v,
    data !! k = Some v
    <-> exists x text,
          x ∈ entries /\ DirEntry.is_file x = true
          /\ splitext (DirEntry.name x) = (k, ".json")
          /\ DirEntry.name x = k +:+ ".json"
          /\ open_text (DirEntry.path dir x) = Ok text
          /\ json_load text = Ok v.
Proof.
  intros Hs H k v. unfold _data_files in H. rewrite Hs in H.
  cbn [mbind result_bind] in H. rewrite (data_loop _ _ _ _ H k v). split.
  - intros [(x & text & Hx & [Hf Hn]%json_named_spec & Ht & Hv)|[? _]]; [|done].
    exists x, text. repeat split; try done.
    rewrite <- (proj1 (splitext_joins (DirEntry.name x))). by rewrite Hn.
  - intros (x & text & Hx & Hf & Hn & _ & Ht & Hv). left.
    exists x, text. split; [done|]. split; [by apply json_named_spec|done].
Qed.

(** X23. A data file that cannot be read or decoded stops the load: when
    a regular file with the extension [.json] raises on open or in the
    decoder, [_data_files] raises. *)
Theorem data_files_fails_fast dir entries x e :
  scandir dir = Ok entries -> x ∈ entries ->
  DirEntry.is_file x = true -> (splitext (DirEntry.name x)).2 = ".json" ->
  (text ← open_text (DirEntry.path dir x); json_load text) = Raise e ->
  exists e', _data_files open_text scandir json_load dir = Raise e'.
Proof.
  intros Hs Hx Hf Hext He. unfold _data_files. rewrite Hs. cbn [mbind result_bind].
  clear Hs. generalize (∅ : gmap string value).
  induction Hx as [x xs|x y xs Hx IH]; intros d.
  - assert (data_entry_ dir d x = Raise e) as Hstep.
    { unfold data_entry. rewrite Hf, Hext. cbn [andb].
      change (String.eqb ".json" ".json") with true. cbv iota.
      destruct (open_text (DirEntry.path dir x)) as [text|];
        cbn [mbind result_bind] in *; [by rewrite He|by injection He as ->]. }
    cbn [for_each]. rewrite Hstep. by eexists.
  - cbn [for_each]. destruct (data_entry_ dir d y) as [d1|e1];
      cbn [mbind result_bind]; [by apply IH|by eexists].
Qed.

End DataFacts.

(** ** Examples for the output tree and the data files *)

Lemma backwards_perm d : backwards d ≡ₚ map_to_list d.
Proof. apply reverse_Permutation. Qed.

Lemma mkdir_exists_witness :
  (lookup_path ["blog"; "first"] None <> None ->
   Some (Dir {[ "blog" := Dir {[ "first" := Dir ∅ ]} ]}) = None)
  /\ exists n,
      lookup_path ["blog"; "first"]
        (Some (Dir {[ "blog" := Dir {[ "first" := Dir ∅ ]} ]})) = Some n
      /\ (lookup_path ["blog"; "first"] None = None -> node_is_dir n = true).
Proof.
  apply (mkdir_exists ["blog"; "first"] None). vm_compute. reflexivity.
Defined.

Lemma write_at_lookup_witness :
  lookup_path ["about"; "index.html"]
    (Some (Dir {[ "about" := Dir {[ "index.html" := File "new" ]} ]}))
  = Some (File "new").
Proof.
  apply (write_at_lookup ["about"; "index.html"] "new"
           (Some (Dir {[ "about" := Dir {[ "index.html" := File "old" ]} ]}))).
  vm_compute. reflexivity.
Defined.

Lemma clean_settles_witness :
  clean backwards {[ "index.html" ]} old_public
  = Ok (Some (Dir {[ ".git" := Dir {[ "HEAD" := File "ref" ]} ]}))
  /\ forall links',
       clean backwards links' (Some (Dir {[ ".git" := Dir {[ "HEAD" := File "ref" ]} ]}))
       = Ok (Some (Dir {[ ".git" := Dir {[ "HEAD" := File "ref" ]} ]})).
Proof.
  apply (clean_settles map_to_list backwards
           (fun d => reflexivity (map_to_list d)) backwards_perm
           {[ "index.html" ]} old_public).
  vm_compute. reflexivity.
Defined.

Lemma static_copy_order_free_witness :
  entries_of site_public
  = entries_of (match _copy_static_files backwards site_static theme_static
                        site_rendered with Ok t => t | Raise _ => None end).
Proof.
  apply (static_copy_order_free map_to_list backwards
           (fun d => reflexivity (map_to_list d)) backwards_perm
           site_static theme_static site_rendered).
  - vm_compute. reflexivity.
  - vm_compute. reflexivity.
Defined.

Lemma static_copy_frame_witness :
  (entries_of site_static !! "blog" = None ->
   entries_of site_public !! "blog" = entries_of site_rendered !! "blog")
  /\ (forall c, entries_of site_static !! "blog" = Some (File c) ->
        (forall sub, entries_of site_rendered !! "blog" <> Some (Dir sub)) ->
        entries_of site_public !! "blog" = Some (File c)).
Proof.
  apply (static_copy_frame map_to_list (fun d => reflexivity (map_to_list d))
           site_static theme_static site_rendered site_public "blog").
  - vm_compute. reflexivity.
  - vm_compute. reflexivity.
Defined.

Lemma static_kind_clash_witness :
  exists e, _copy_static_files map_to_list
              (Some (Dir {[ "img" := File "a" ]}))
              (Some (Dir {[ "img" := Dir {[ "logo.png" := File "b" ]} ]}))
              (Some (Dir ∅)) = Raise e.
Proof.
  apply (proj1 (static_kind_clash map_to_list (fun d => reflexivity (map_to_list d))
                  {[ "img" := File "a" ]}
                  {[ "img" := Dir {[ "logo.png" := File "b" ]} ]}
                  (Some (Dir ∅)) "img" "a")
           {[ "logo.png" := File "b" ]}).
  - vm_compute. reflexivity.
  - vm_compute. reflexivity.
Defined.

Lemma data_files_lookup_witness :
  site_data !! "flags.v2" = Some (VBool true)
  <-> exists x text,
        x ∈ [regular_file "notes.txt"; regular_file "menu.json"; directory "old.json";
             regular_file ".json"; regular_file "flags.v2.json"]
        /\ DirEntry.is_file x = true
        /\ splitext (DirEntry.name x) = ("flags.v2", ".json")
        /\ DirEntry.name x = "flags.v2" +:+ ".json"
        /\ data_open (DirEntry.path "data" x) = Ok text
        /\ literal_json text = Ok (VBool true).
Proof.
  apply (data_files_lookup data_open data_scandir literal_json "data").
  - reflexivity.
  - vm_compute. reflexivity.
Defined.

Lemma data_files_fails_fast_witness :
  exists e', _data_files (fun _ => Ok "broken") data_scandir literal_json "data"
             = Raise e'.
Proof.
  apply (data_files_fails_fast (fun _ => Ok "broken") data_scandir literal_json "data"
           [regular_file "notes.txt"; regular_file "menu.json"; directory "old.json";
            regular_file ".json"; regular_file "flags.v2.json"]
           (regular_file "menu.json") (OSError "JSONDecodeError")).
  - reflexivity.
  - apply list_elem_of_further, list_elem_of_here.
  - reflexivity.
  - reflexivity.
  - reflexivity.
Defined.

(** The data of the example: the file [.json] and the directory
    [old.json] give no key, and [flags.v2.json] gives the key
    [flags.v2]. *)
Example site_data_keys :
  site_data = {[ "menu" := VNone; "flags.v2" := VBool true ]}.
Proof. by vm_compute. Qed.
